(** * Aquaorder: order lifecycle, role resolution and dashboard metrics

  A shallow embedding of the logic of the Aquaorder screens
  (customer, driver and owner pages, and the [authz] helper) together
  with the properties stated about them.

  Conventions of the embedding:
  - a JavaScript string is the list of its UTF-16 code units;
  - a JavaScript number is an IEEE 754 binary64 value, Rocq's primitive
    [float], so arithmetic below is the arithmetic the browser performs;
  - a Firestore document is a finite map from field names to values,
    a collection a finite map from document ids to documents;
  - an event handler is a function from the state it can touch (its
    page's React state and the shared store) to the state it leaves. *)

From Stdlib Require Import ZArith NArith String Ascii List.
From Stdlib Require PrimFloat FloatAxioms FloatOps SpecFloat.
From stdpp Require Import gmap strings list fin_maps.
Import PrimFloat.PrimFloatNotations.
Number Notation PrimFloat.float PrimFloat.parser PrimFloat.printer : float_scope.

Local Open Scope string_scope.
Local Open Scope list_scope.

(** ** JavaScript values *)

Module JS.

(** UTF-16 code units. *)
Abbreviation jsstring := (list N).

(** A string literal of the source text (ASCII). *)
Definition lit (s : string) : jsstring :=
  map N_of_ascii (list_ascii_of_string s).

(** The values a document field or a component variable holds here.
    [Time] is a Firestore [Timestamp]; [ServerTimestamp] is the sentinel
    returned by [serverTimestamp()], replaced by the store on commit. *)
Inductive value : Type :=
| Undefined
| Null
| Bool (b : bool)
| Num (x : PrimFloat.float)
| Str (s : jsstring)
| Time (t : Z)
| ServerTimestamp.

(** [!x] on a number is true for NaN, [0] and [-0]. *)
Definition falsyNum (x : PrimFloat.float) : bool :=
  PrimFloat.is_nan x || PrimFloat.is_zero x.

(** ToBoolean. *)
Definition truthy (v : value) : bool :=
  match v with
  | Undefined | Null => false
  | Bool b => b
  | Num x => negb (falsyNum x)
  | Str s => match s with [] => false | _ :: _ => true end
  | Time _ | ServerTimestamp => true
  end.

Definition nullish (v : value) : bool :=
  match v with Undefined | Null => true | _ => false end.

(** [a ?? b] *)
Definition coalesce (a b : value) : value := if nullish a then b else a.

(** [v === "literal"] *)
Definition eqStr (v : value) (s : string) : bool :=
  match v with Str t => bool_decide (t = lit s) | _ => false end.

(** [v === false] *)
Definition eqFalse (v : value) : bool :=
  match v with Bool false => true | _ => false end.

(** [typeof v === "number" ? v : 0] *)
Definition numberOrZero (v : value) : PrimFloat.float :=
  match v with Num x => x | _ => 0%float end.

(** [Number(x) || 0] for a number [x]. *)
Definition orZero (x : PrimFloat.float) : PrimFloat.float :=
  if falsyNum x then 0%float else x.

(** WhiteSpace and LineTerminator code points, all in the basic plane. *)
Definition isWhiteSpace (c : N) : bool :=
  ((9 <=? c) && (c <=? 13) || (c =? 32) || (c =? 160) || (c =? 5760)
   || (8192 <=? c) && (c <=? 8202) || (c =? 8232) || (c =? 8233)
   || (c =? 8239) || (c =? 8287) || (c =? 12288) || (c =? 65279))%N.

Fixpoint trimStart (s : jsstring) : jsstring :=
  match s with
  | c :: s' => if isWhiteSpace c then trimStart s' else s
  | [] => []
  end.

(** [s.trim()] *)
Definition trim (s : jsstring) : jsstring :=
  rev (trimStart (rev (trimStart s))).

(** [!s] on a string. *)
Definition emptyStr (s : jsstring) : bool :=
  match s with [] => true | _ :: _ => false end.

End JS.
Import JS.

(** ** The document store *)

Module Firestore.

Abbreviation Doc := (gmap string value).
Abbreviation Collection := (gmap (list N) (gmap string value)).

(** [data.k]: a missing field reads as [undefined]. *)
Definition field (data : Doc) (k : string) : value :=
  default Undefined (data !! k).

(** A write call as the client issues it. *)
Inductive Write : Type :=
| UpdateDoc (id : jsstring) (payload : Doc)
| AddDoc (payload : Doc).

(** The [orders] collection and the log of the write calls issued
    against it, oldest first. *)
Record World : Type := {
  orders : Collection;
  issued : list Write
}.

(** The server replaces the timestamp sentinel by its clock. *)
Definition resolve (now : Z) (v : value) : value :=
  match v with ServerTimestamp => Time now | _ => v end.

(** [updateDoc(doc(db, "orders", id), payload)]: the fields of the
    payload replace those of the stored document, the others stay; the
    call fails when there is no such document. The boolean tells whether
    the promise resolved. *)
Definition updateDoc (now : Z) (id : jsstring) (payload : Doc)
    (w : World) : bool * World :=
  match orders w !! id with
  | Some old =>
      (true, {| orders := <[id := (resolve now <$> payload) ∪ old]> (orders w);
                issued := issued w ++ [UpdateDoc id payload] |})
  | None =>
      (false, {| orders := orders w;
                 issued := issued w ++ [UpdateDoc id payload] |})
  end.

(** [addDoc(collection(db, "orders"), payload)] with the id the SDK
    generates for the new document. *)
Definition addDoc (now : Z) (newId : jsstring) (payload : Doc)
    (w : World) : jsstring * World :=
  (newId, {| orders := <[newId := resolve now <$> payload]> (orders w);
             issued := issued w ++ [AddDoc payload] |}).

(** The message of the error [updateDoc] rejects with. *)
Definition notFoundMessage (id : jsstring) : jsstring :=
  lit "No document to update: " ++ id.

End Firestore.
Import Firestore.

(** ** [app/lib/types] *)

Inductive OrderStatus : Type :=
| PENDING | CONFIRMED | OUT_FOR_DELIVERY | DELIVERED | CANCELLED.

#[global] Instance OrderStatus_eq_dec : EqDecision OrderStatus.
Proof. solve_decision. Defined.

Definition statusName (s : OrderStatus) : string :=
  match s with
  | PENDING => "PENDING"
  | CONFIRMED => "CONFIRMED"
  | OUT_FOR_DELIVERY => "OUT_FOR_DELIVERY"
  | DELIVERED => "DELIVERED"
  | CANCELLED => "CANCELLED"
  end.

Definition statusValue (s : OrderStatus) : value := Str (lit (statusName s)).

(** The [Order] object a screen builds from a document snapshot. The
    fields hold whatever the document holds: the cast [as Order] checks
    nothing at run time. *)
Module Order.

Record t : Type := {
  id : jsstring;
  customerUid : value;
  customerName : value;
  customerPhone : value;
  address : value;
  landmark : value;
  waterType : value;
  liters : value;
  paymentMethod : value;
  scheduleType : value;
  scheduledFor : value;
  status : value;
  createdAt : value;
  updatedAt : value;
  assignedDriverUid : value;
  assignedDriverName : value
}.

End Order.

(** The mapping applied to every document of a query snapshot (the same
    on the three screens). *)
Definition toOrder (docId : jsstring) (data : Doc) : Order.t := {|
  Order.id := docId;
  Order.customerUid := field data "customerUid";
  Order.customerName := field data "customerName";
  Order.customerPhone := field data "customerPhone";
  Order.address := field data "address";
  Order.landmark := field data "landmark";
  Order.waterType := field data "waterType";
  Order.liters := field data "liters";
  Order.paymentMethod := field data "paymentMethod";
  Order.scheduleType := field data "scheduleType";
  Order.scheduledFor := coalesce (field data "scheduledFor") Null;
  Order.status := field data "status";
  Order.createdAt := coalesce (field data "createdAt") Null;
  Order.updatedAt := coalesce (field data "updatedAt") Null;
  Order.assignedDriverUid := coalesce (field data "assignedDriverUid") Null;
  Order.assignedDriverName := coalesce (field data "assignedDriverName") Null
|}.

(** The part of a Firebase [User] the screens read. *)
Record User : Type := {
  uid : jsstring;
  displayName : option jsstring
}.

(** ** [app/lib/authz] *)

Module Authz.

Inductive UserRole : Type := OWNER | DRIVER.

#[global] Instance UserRole_eq_dec : EqDecision UserRole.
Proof. solve_decision. Defined.

Definition roleName (r : UserRole) : string :=
  match r with OWNER => "OWNER" | DRIVER => "DRIVER" end.

(** [getUserRole(uid)] over the [users] collection. *)
Definition getUserRole (users : Collection) (uid : jsstring)
    : option UserRole :=
  match users !! uid with
  | None => None
  | Some data =>
      if eqFalse (field data "isActive") then None
      else
        let role := field data "role" in
        if eqStr role "OWNER" then Some OWNER
        else if eqStr role "DRIVER" then Some DRIVER
        else None
  end.

Record AuthzState : Type := {
  loading : bool;
  user : option User;
  role : option UserRole;
  error : option jsstring;
  accessDenied : bool
}.

Definition denied : AuthzState :=
  {| loading := false; user := None; role := None;
     error := Some (lit "Access denied for this area.");
     accessDenied := true |}.

(** The state [useRequireRole] settles in once the identity provider
    has reported [u] and the role lookup has returned. *)
Definition useRequireRole (users : Collection) (requiredRole : UserRole)
    (u : option User) : AuthzState :=
  match u with
  | None =>
      {| loading := true; user := None; role := None; error := None;
         accessDenied := false |}
  | Some usr =>
      match getUserRole users (uid usr) with
      | Some r =>
          if bool_decide (r = requiredRole) then
            {| loading := false; user := Some usr; role := Some r;
               error := None; accessDenied := false |}
          else denied
      | None => denied
      end
  end.

End Authz.

(** ** The driver screen *)

Module DriverPage.

(** The slice of the component state the handler writes. *)
Record State : Type := {
  actionMessage : option jsstring
}.

(** [user?.uid ?? null] *)
Definition driverUid (user : option User) : value :=
  match user with Some u => Str (uid u) | None => Null end.

(** [user?.displayName] *)
Definition userDisplayName (user : option User) : value :=
  match user with
  | Some u => match displayName u with Some d => Str d | None => Null end
  | None => Undefined
  end.

Definition basePayload (status : OrderStatus) : Doc :=
  <["updatedAt" := ServerTimestamp]> (<["status" := statusValue status]> ∅).

Definition selfAssign (user : option User) (order : Order.t)
    (payload : Doc) : Doc :=
  <["assignedDriverName" :=
      coalesce (coalesce (Order.assignedDriverName order)
                         (userDisplayName user))
               (Str (lit "Driver"))]>
    (<["assignedDriverUid" := driverUid user]> payload).

Definition noLongerConfirmed : jsstring :=
  lit "This delivery is no longer in the confirmed stage.".

Definition notOutForDelivery : jsstring :=
  lit "This delivery is not out for delivery yet.".

(** [updateStatus(order, status)] *)
Definition updateStatus (now : Z) (user : option User) (order : Order.t)
    (status : OrderStatus) (s : State * World) : State * World :=
  let current := Order.status order in
  if bool_decide (status = OUT_FOR_DELIVERY)
     && negb (eqStr current "CONFIRMED") then
    ({| actionMessage := Some noLongerConfirmed |}, s.2)
  else if bool_decide (status = DELIVERED)
          && negb (eqStr current "OUT_FOR_DELIVERY") then
    ({| actionMessage := Some notOutForDelivery |}, s.2)
  else
    let payload := basePayload status in
    let payload :=
      if bool_decide (status = OUT_FOR_DELIVERY)
         && negb (truthy (Order.assignedDriverUid order))
         && truthy (driverUid user)
      then selfAssign user order payload
      else payload in
    ({| actionMessage := None |},
     (updateDoc now (Order.id order) payload s.2).2).

(** The buttons of an order card and when each is rendered. *)
Inductive Button : Type := StartDelivery | MarkDelivered.

Definition offered (b : Button) (order : Order.t) : bool :=
  match b with
  | StartDelivery => eqStr (Order.status order) "CONFIRMED"
  | MarkDelivered => eqStr (Order.status order) "OUT_FOR_DELIVERY"
  end.

Definition target (b : Button) : OrderStatus :=
  match b with
  | StartDelivery => OUT_FOR_DELIVERY
  | MarkDelivered => DELIVERED
  end.

(** Pressing a button of the card of [order]; a button that is not
    rendered cannot be pressed. *)
Definition click (now : Z) (user : option User) (b : Button)
    (order : Order.t) (s : State * World) : State * World :=
  if offered b order then updateStatus now user order (target b) s else s.

End DriverPage.

(** ** The owner screen *)

Module OwnerPage.

Record DriverOption : Type := {
  uid : jsstring;
  name : jsstring
}.

(** The slice of the component state the handlers read and write. *)
Record State : Type := {
  drivers : list DriverOption;
  driverSelections : gmap jsstring jsstring;
  assigningOrderId : option jsstring;
  assignmentMessage : option jsstring
}.

Definition statusPayload (status : OrderStatus) : Doc :=
  <["updatedAt" := ServerTimestamp]> (<["status" := statusValue status]> ∅).

(** [updateStatus(orderId, status)] *)
Definition updateStatus (now : Z) (orderId : jsstring)
    (status : OrderStatus) (s : State * World) : State * World :=
  (s.1, (updateDoc now orderId (statusPayload status) s.2).2).

Definition assignPayload (selectedUid : jsstring)
    (driver : option DriverOption) : Doc :=
  <["updatedAt" := ServerTimestamp]>
    (<["assignedDriverName" :=
         Str (match driver with Some d => name d | None => lit "Driver" end)]>
       (<["assignedDriverUid" := Str selectedUid]> ∅)).

(** [drivers.find((item) => item.uid === selectedUid)] *)
Definition selectedDriver (st : State) (selectedUid : jsstring)
    : option DriverOption :=
  find (fun item => bool_decide (uid item = selectedUid)) (drivers st).

(** [handleAssignDriver(order)] *)
Definition handleAssignDriver (now : Z) (order : Order.t)
    (s : State * World) : State * World :=
  match driverSelections s.1 !! Order.id order with
  | None => s
  | Some selectedUid =>
      if emptyStr selectedUid then s
      else
        let driver := selectedDriver s.1 selectedUid in
        let r := updateDoc now (Order.id order)
                   (assignPayload selectedUid driver) s.2 in
        ({| drivers := drivers s.1;
            driverSelections := driverSelections s.1;
            assigningOrderId := None;
            assignmentMessage :=
              Some (if r.1 then lit "Driver assignment saved."
                    else notFoundMessage (Order.id order)) |},
         r.2)
  end.

(** The buttons of an order card and when each is rendered and enabled. *)
Inductive Button : Type := Confirm | Cancel | RevertToPending | AssignDriver.

Definition canAssign (order : Order.t) : bool :=
  eqStr (Order.status order) "PENDING"
  || eqStr (Order.status order) "CONFIRMED".

Definition assignDisabled (st : State) (order : Order.t) : bool :=
  bool_decide (assigningOrderId st = Some (Order.id order))
  || match driverSelections st !! Order.id order with
     | Some sel => emptyStr sel
     | None => true
     end.

Definition offered (st : State) (b : Button) (order : Order.t) : bool :=
  match b with
  | Confirm => eqStr (Order.status order) "PENDING"
  | Cancel => eqStr (Order.status order) "PENDING"
              || eqStr (Order.status order) "CONFIRMED"
  | RevertToPending => eqStr (Order.status order) "CONFIRMED"
  | AssignDriver => canAssign order && negb (assignDisabled st order)
  end.

Definition press (now : Z) (b : Button) (order : Order.t)
    (s : State * World) : State * World :=
  match b with
  | Confirm => updateStatus now (Order.id order) CONFIRMED s
  | Cancel => updateStatus now (Order.id order) CANCELLED s
  | RevertToPending => updateStatus now (Order.id order) PENDING s
  | AssignDriver => handleAssignDriver now order s
  end.

Definition click (now : Z) (b : Button) (order : Order.t)
    (s : State * World) : State * World :=
  if offered s.1 b order then press now b order s else s.

(** *** Dashboard metrics *)

Record DashboardMetrics : Type := {
  total : PrimFloat.float;
  liters : PrimFloat.float;
  byStatus : OrderStatus -> PrimFloat.float;
  deliveredOrders : PrimFloat.float;
  deliveredLiters : PrimFloat.float
}.

Definition createEmptyMetrics : DashboardMetrics := {|
  total := 0;
  liters := 0;
  byStatus := fun _ => 0%float;
  deliveredOrders := 0;
  deliveredLiters := 0
|}.

Definition STATUS_TABS : list OrderStatus :=
  [PENDING; CONFIRMED; OUT_FOR_DELIVERY; DELIVERED; CANCELLED].

(** The key of [metrics.byStatus] that [status] selects, if it is one of
    the five the object is created with. (Any other key the lookup may
    find is inherited from [Object.prototype]; incrementing it touches
    none of the five counters.) *)
Definition statusKey (status : value) : option OrderStatus :=
  find (fun k => eqStr status (statusName k)) STATUS_TABS.

Definition bump (m : OrderStatus -> PrimFloat.float) (k : OrderStatus)
    : OrderStatus -> PrimFloat.float :=
  fun k' => if bool_decide (k' = k) then (m k' + 1)%float else m k'.

(** The body of [snapshot.forEach]. *)
Definition tally (metrics : DashboardMetrics) (data : Doc)
    : DashboardMetrics :=
  let status := field data "status" in
  let byStatus1 :=
    match statusKey status with
    | Some k => if truthy status then bump (byStatus metrics) k
                else byStatus metrics
    | None => byStatus metrics
    end in
  let total1 := (total metrics + 1)%float in
  let l := numberOrZero (field data "liters") in
  let liters1 := (liters metrics + l)%float in
  if eqStr status "DELIVERED" then
    {| total := total1; liters := liters1; byStatus := byStatus1;
       deliveredOrders := (deliveredOrders metrics + 1)%float;
       deliveredLiters := (deliveredLiters metrics + l)%float |}
  else
    {| total := total1; liters := liters1; byStatus := byStatus1;
       deliveredOrders := deliveredOrders metrics;
       deliveredLiters := deliveredLiters metrics |}.

(** The snapshot callback of the dashboard effect: a fold over the
    documents of the snapshot, in the order of the query. *)
Definition todayMetrics (snapshot : list Doc) : DashboardMetrics :=
  fold_left tally snapshot createEmptyMetrics.

Definition deliveredRevenueToday (dashboardMetrics : DashboardMetrics)
    (pricePer1000Value deliveryFeeValue : PrimFloat.float)
    : PrimFloat.float :=
  let deliveredOrdersToday := deliveredOrders dashboardMetrics in
  let pricePer1000 := orZero pricePer1000Value in
  let deliveryFee := orZero deliveryFeeValue in
  if (0 <? pricePer1000)%float then
    (deliveredLiters dashboardMetrics / 1000 * pricePer1000
     + deliveryFee * deliveredOrdersToday)%float
  else 0%float.

End OwnerPage.

(** ** The customer screen *)

Module CustomerPage.

Inductive WaterType : Type := refill | bottles.
Inductive PaymentMethod : Type := cash | eft.
Inductive ScheduleType : Type := asap | later.

#[global] Instance ScheduleType_eq_dec : EqDecision ScheduleType.
Proof. solve_decision. Defined.

Definition waterTypeName (x : WaterType) : string :=
  match x with refill => "refill" | bottles => "bottles" end.
Definition paymentMethodName (x : PaymentMethod) : string :=
  match x with cash => "cash" | eft => "eft" end.
Definition scheduleTypeName (x : ScheduleType) : string :=
  match x with asap => "asap" | later => "later" end.

(** The form fields and the identity the handler reads. *)
Record Form : Type := {
  authUser : option User;
  waterType : WaterType;
  liters : PrimFloat.float;
  scheduleType : ScheduleType;
  scheduledDate : jsstring;
  scheduledTime : jsstring;
  customerName : jsstring;
  customerPhone : jsstring;
  address : jsstring;
  landmark : jsstring;
  paymentMethod : PaymentMethod
}.

(** The slice of the component state the handler writes. *)
Record State : Type := {
  isSubmitting : bool;
  submitError : option jsstring;
  orderId : option jsstring
}.

Section Builtins.

(** [s.split(sep).map(Number)] and
    [Timestamp.fromDate(new Date(year, month, day, hour, minute))] are the
    platform's; the code below only relies on what they are applied to. *)
Variable splitNumbers : string -> jsstring -> list PrimFloat.float.
Variable timestampFromDate :
  PrimFloat.float -> PrimFloat.float -> PrimFloat.float ->
  PrimFloat.float -> PrimFloat.float -> Z.

(** An array element; one that is missing reads as [undefined], which
    [!x] and [x || 0] treat as they treat NaN. *)
Definition part (i : nat) (parts : list PrimFloat.float) : PrimFloat.float :=
  nth i parts PrimFloat.nan.

(** The memoised [scheduledTimestamp]. *)
Definition scheduledTimestamp (f : Form) : value :=
  match scheduleType f with
  | asap => Null
  | later =>
      if emptyStr (scheduledDate f) || emptyStr (scheduledTime f) then Null
      else
        let ymd := splitNumbers "-" (scheduledDate f) in
        let hm := splitNumbers ":" (scheduledTime f) in
        let year := part 0 ymd in
        let month := part 1 ymd in
        let day := part 2 ymd in
        let hour := part 0 hm in
        let minute := part 1 hm in
        if falsyNum year || falsyNum month || falsyNum day then Null
        else Time (timestampFromDate year (month - 1)%float day
                                     (orZero hour) (orZero minute))
  end.

Definition orderPayload (u : User) (f : Form) : Doc :=
  list_to_map
    [ ("customerUid", Str (uid u));
      ("customerName", Str (trim (customerName f)));
      ("customerPhone", Str (trim (customerPhone f)));
      ("address", Str (trim (address f)));
      ("landmark", Str (trim (landmark f)));
      ("waterType", Str (lit (waterTypeName (waterType f))));
      ("liters", Num (liters f));
      ("paymentMethod", Str (lit (paymentMethodName (paymentMethod f))));
      ("scheduleType", Str (lit (scheduleTypeName (scheduleType f))));
      ("scheduledFor", scheduledTimestamp f);
      ("status", Str (lit "PENDING"));
      ("assignedDriverUid", Null);
      ("assignedDriverName", Null);
      ("createdAt", ServerTimestamp);
      ("updatedAt", ServerTimestamp) ].

Definition rejected (st : State) (msg : string) : State :=
  {| isSubmitting := isSubmitting st;
     submitError := Some (lit msg);
     orderId := orderId st |}.

(** [handleSubmit(event)]; [newId] is the id the SDK gives the document. *)
Definition handleSubmit (now : Z) (newId : jsstring) (f : Form)
    (s : State * World) : State * World :=
  match authUser f with
  | None =>
      (rejected s.1 "Signing you in. Please try again in a moment.", s.2)
  | Some u =>
      if emptyStr (trim (customerName f))
         || emptyStr (trim (customerPhone f))
         || emptyStr (trim (address f)) then
        (rejected s.1 "Please complete your name, phone, and address.", s.2)
      else if falsyNum (liters f) || (liters f <=? 0)%float then
        (rejected s.1 "Please choose a valid liters amount.", s.2)
      else if bool_decide (scheduleType f = later)
              && negb (truthy (scheduledTimestamp f)) then
        (rejected s.1 "Please select a delivery date and time.", s.2)
      else
        let r := addDoc now newId (orderPayload u f) s.2 in
        ({| isSubmitting := false; submitError := None;
            orderId := Some r.1 |}, r.2)
  end.

(** The three checks the handler makes on the form, taken together. *)
Definition checks (f : Form) : bool :=
  (emptyStr (trim (customerName f)) || emptyStr (trim (customerPhone f))
   || emptyStr (trim (address f)))
  || (falsyNum (liters f) || (liters f <=? 0)%float)
  || (bool_decide (scheduleType f = later)
      && negb (truthy (scheduledTimestamp f))).

End Builtins.

End CustomerPage.

(** ** The order collection as a transition system *)

Module Lifecycle.

Definition initial : World := {| orders := ∅; issued := [] |}.


(** The assignment fields of a stored order are both [null] or both set. *)
Definition paired (d : Doc) : Prop :=
  (field d "assignedDriverUid" = Null /\ field d "assignedDriverName" = Null)
  \/ (nullish (field d "assignedDriverUid") = false
      /\ nullish (field d "assignedDriverName") = false).

Definition allPaired (w : World) : Prop :=
  forall (i : jsstring) (d : Doc), orders w !! i = Some d -> paired d.

(** The status the store holds for the order [i]. *)
Definition storedStatus (w : World) (i : jsstring) : value :=
  match orders w !! i with
  | Some d => field d "status"
  | None => Undefined
  end.

Section Steps.

Variable splitNumbers : string -> jsstring -> list PrimFloat.float.
Variable timestampFromDate :
  PrimFloat.float -> PrimFloat.float -> PrimFloat.float ->
  PrimFloat.float -> PrimFloat.float -> Z.

(** One handler run, on whatever order object the screen holds: the
    object is a past snapshot of the document and need not agree with
    the store. *)
Inductive step : World -> World -> Prop :=
| step_submit now newId f st w :
    orders w !! newId = None ->
    step w (CustomerPage.handleSubmit splitNumbers timestampFromDate
              now newId f (st, w)).2
| step_owner now b order st w :
    step w (OwnerPage.press now b order (st, w)).2
| step_driver now user order status st w :
    step w (DriverPage.updateStatus now user order status (st, w)).2.


End Steps.

End Lifecycle.

(** ** Reference quantities for the dashboard *)

Module Reference.

(** The number a counter holds after [n] increments from [x]. *)
Definition countFrom (x : PrimFloat.float) (n : nat) : PrimFloat.float :=
  Nat.iter n (fun c => (c + 1)%float) x.

Definition jsCount (n : nat) : PrimFloat.float := countFrom 0 n.

(** The sum of the numbers of a list, added left to right. *)
Definition jsSum (l : list PrimFloat.float) : PrimFloat.float :=
  fold_left PrimFloat.add l 0%float.

Definition docLiters (data : Doc) : PrimFloat.float :=
  numberOrZero (field data "liters").

Definition hasStatus (k : OrderStatus) (data : Doc) : bool :=
  eqStr (field data "status") (statusName k).

Definition withStatus (k : OrderStatus) (snapshot : list Doc) : list Doc :=
  List.filter (hasStatus k) snapshot.

End Reference.

(** ** Sample data *)

Module Sample.

Definition profile (role : string) (active : option bool) : Doc :=
  match active with
  | Some b => <["isActive" := Bool b]> (<["role" := Str (lit role)]> ∅)
  | None => <["role" := Str (lit role)]> ∅
  end.

Definition users : Collection :=
  <[lit "u1" := profile "OWNER" (Some true)]>
    (<[lit "u2" := profile "DRIVER" None]>
       (<[lit "u3" := profile "OWNER" (Some false)]>
          (<[lit "u4" := profile "ADMIN" (Some true)]> ∅))).

Definition orderDoc (status : OrderStatus) (l : PrimFloat.float) : Doc :=
  <["status" := statusValue status]>
    (<["liters" := Num l]>
       (<["assignedDriverUid" := Null]>
          (<["assignedDriverName" := Null]> ∅))).

(** Three pending and two delivered orders. *)
Definition today : list Doc :=
  [ orderDoc PENDING 100; orderDoc DELIVERED 1000; orderDoc PENDING 200;
    orderDoc PENDING 50; orderDoc DELIVERED 500 ].

Definition world (status : OrderStatus) : World :=
  {| orders := <[lit "o1" := orderDoc status 1000]> ∅; issued := [] |}.

Definition driver : User :=
  {| uid := lit "d7"; displayName := Some (lit "Thabo") |}.

Definition customer : User :=
  {| uid := lit "c1"; displayName := None |}.

Definition driverState : DriverPage.State :=
  {| DriverPage.actionMessage := None |}.

Definition ownerState : OwnerPage.State :=
  {| OwnerPage.drivers :=
       [ {| OwnerPage.uid := lit "d7"; OwnerPage.name := lit "Thabo M" |} ];
     OwnerPage.driverSelections := <[lit "o1" := lit "d7"]> ∅;
     OwnerPage.assigningOrderId := None;
     OwnerPage.assignmentMessage := None |}.

Definition customerState : CustomerPage.State :=
  {| CustomerPage.isSubmitting := false;
     CustomerPage.submitError := None;
     CustomerPage.orderId := None |}.

(** A complete order form for an immediate refill of 1000 litres. *)
Definition form (who : option User) : CustomerPage.Form :=
  {| CustomerPage.authUser := who;
     CustomerPage.waterType := CustomerPage.refill;
     CustomerPage.liters := 1000;
     CustomerPage.scheduleType := CustomerPage.asap;
     CustomerPage.scheduledDate := [];
     CustomerPage.scheduledTime := [];
     CustomerPage.customerName := lit "Neo";
     CustomerPage.customerPhone := lit "0820000000";
     CustomerPage.address := lit "12 Main Rd";
     CustomerPage.landmark := [];
     CustomerPage.paymentMethod := CustomerPage.cash |}.

(** Stand-ins for the platform functions the customer form calls. *)
Definition noNumbers (sep : string) (s : jsstring) : list PrimFloat.float := [].
Definition epoch (y m d h mi : PrimFloat.float) : Z := 0.

End Sample.

(** ** More of [app/lib/types] *)

Module Types.

(** A code unit the pattern [\D] does not match. *)
Definition isDigit (c : N) : bool := ((48 <=? c) && (c <=? 57))%N.

(** [digitsOnly(value)]: [value ? value.replace(/\D/g, "") : ""] *)
Definition digitsOnly (value : option jsstring) : jsstring :=
  match value with
  | Some s => if emptyStr s then [] else List.filter isDigit s
  | None => []
  end.

(** [formatStatusLabel(status)]:
    [status ? status.replace(/_/g, " ") : "—"] *)
Definition formatStatusLabel (status : option jsstring) : jsstring :=
  match status with
  | Some s =>
      if emptyStr s then [8212%N]
      else map (fun c => if (c =? 95)%N then 32%N else c) s
  | None => [8212%N]
  end.

End Types.

(** ** The owner screen: goal progress *)

Module OwnerDashboard.

(** [Math.min(a, b)]: NaN if either is, and [-0] below [+0]. *)
Definition mathMin (a b : PrimFloat.float) : PrimFloat.float :=
  if PrimFloat.is_nan a || PrimFloat.is_nan b then PrimFloat.nan
  else if (a <? b)%float then a
  else if (b <? a)%float then b
  else if PrimFloat.get_sign a then a else b.

Definition progress (dashboardMetrics : OwnerPage.DashboardMetrics)
    (dailyGoalValue : PrimFloat.float) : PrimFloat.float :=
  let deliveredOrdersToday := OwnerPage.deliveredOrders dashboardMetrics in
  let dailyGoal := orZero dailyGoalValue in
  if (0 <? dailyGoal)%float
  then mathMin (deliveredOrdersToday / dailyGoal)%float 1%float
  else 0%float.

End OwnerDashboard.

(** ** The owner screen: settings *)

Module OwnerSettings.

(** The slice of the component state the settings code reads and writes. *)
Record State : Type := {
  tankCapacityInput : jsstring;
  pricePer1000Input : jsstring;
  deliveryFeeInput : jsstring;
  dailyGoalInput : jsstring;
  businessNameInput : jsstring;
  businessPhoneInput : jsstring;
  businessEmailInput : jsstring;
  businessAddressInput : jsstring;
  businessWhatsappInput : jsstring;
  businessHoursInput : jsstring;
  businessNoteInput : jsstring;
  pricePer1000Value : PrimFloat.float;
  deliveryFeeValue : PrimFloat.float;
  dailyGoalValue : PrimFloat.float;
  settingsExists : bool;
  settingsLoading : bool;
  settingsError : option jsstring;
  settingsMessage : option jsstring
}.

(** [setDoc(ref, data, { merge: true })] on the document [settings/app],
    which need not exist yet. *)
Definition setDocMerge (now : Z) (data : Doc) (stored : option Doc)
    : option Doc :=
  Some (match stored with
        | Some old => (resolve now <$> data) ∪ old
        | None => resolve now <$> data
        end).

(** The fields the settings form writes. *)
Definition settingsFields : gset string :=
  {[ "tankCapacityLiters"; "pricePer1000L"; "deliveryFee";
     "dailyDeliveryGoalOrders"; "businessName"; "businessPhone";
     "businessEmail"; "businessAddress"; "businessWhatsapp";
     "businessHours"; "businessNote"; "updatedAt" ]}.

Section Builtins.

(** [Number(s)] on a string and [String(v)] are the platform's. *)
Variable toNumber : jsstring -> PrimFloat.float.
Variable toStr : value -> jsstring.

Definition settingsPayload (st : State) (parsed : PrimFloat.float) : Doc :=
  list_to_map
    [ ("tankCapacityLiters", Num parsed);
      ("pricePer1000L", Num (orZero (toNumber (pricePer1000Input st))));
      ("deliveryFee", Num (orZero (toNumber (deliveryFeeInput st))));
      ("dailyDeliveryGoalOrders", Num (orZero (toNumber (dailyGoalInput st))));
      ("businessName", Str (trim (businessNameInput st)));
      ("businessPhone", Str (trim (businessPhoneInput st)));
      ("businessEmail", Str (trim (businessEmailInput st)));
      ("businessAddress", Str (trim (businessAddressInput st)));
      ("businessWhatsapp", Str (trim (businessWhatsappInput st)));
      ("businessHours", Str (trim (businessHoursInput st)));
      ("businessNote", Str (trim (businessNoteInput st)));
      ("updatedAt", ServerTimestamp) ].

(** [handleSaveSettings(event)] on the page state and the stored
    settings document. *)
Definition handleSaveSettings (now : Z) (s : State * option Doc)
    : State * option Doc :=
  let st := s.1 in
  let parsed := toNumber (tankCapacityInput st) in
  if falsyNum parsed || (parsed <=? 0)%float then
    ({| tankCapacityInput := tankCapacityInput st;
        pricePer1000Input := pricePer1000Input st;
        deliveryFeeInput := deliveryFeeInput st;
        dailyGoalInput := dailyGoalInput st;
        businessNameInput := businessNameInput st;
        businessPhoneInput := businessPhoneInput st;
        businessEmailInput := businessEmailInput st;
        businessAddressInput := businessAddressInput st;
        businessWhatsappInput := businessWhatsappInput st;
        businessHoursInput := businessHoursInput st;
        businessNoteInput := businessNoteInput st;
        pricePer1000Value := pricePer1000Value st;
        deliveryFeeValue := deliveryFeeValue st;
        dailyGoalValue := dailyGoalValue st;
        settingsExists := settingsExists st;
        settingsLoading := settingsLoading st;
        settingsError := Some (lit "Please enter a valid tank capacity.");
        settingsMessage := None |}, s.2)
  else
    ({| tankCapacityInput := tankCapacityInput st;
        pricePer1000Input := pricePer1000Input st;
        deliveryFeeInput := deliveryFeeInput st;
        dailyGoalInput := dailyGoalInput st;
        businessNameInput := businessNameInput st;
        businessPhoneInput := businessPhoneInput st;
        businessEmailInput := businessEmailInput st;
        businessAddressInput := businessAddressInput st;
        businessWhatsappInput := businessWhatsappInput st;
        businessHoursInput := businessHoursInput st;
        businessNoteInput := businessNoteInput st;
        pricePer1000Value := orZero (toNumber (pricePer1000Input st));
        deliveryFeeValue := orZero (toNumber (deliveryFeeInput st));
        dailyGoalValue := orZero (toNumber (dailyGoalInput st));
        settingsExists := settingsExists st;
        settingsLoading := settingsLoading st;
        settingsError := None;
        settingsMessage := Some (lit "Settings saved.") |},
     setDocMerge now (settingsPayload st parsed) s.2).

(** [typeof v === "number"] and [typeof v === "string"] *)
Definition asNumber (v : value) : option PrimFloat.float :=
  match v with Num x => Some x | _ => None end.
Definition asString (v : value) : option jsstring :=
  match v with Str x => Some x | _ => None end.

(** The snapshot callback of the settings subscription; [snapshot] is
    the stored document, if there is one. *)
Definition onSettingsSnapshot (snapshot : option Doc) (st : State) : State :=
  let data (k : string) : value :=
    match snapshot with Some d => field d k | None => Undefined end in
  {| tankCapacityInput :=
       if truthy (data "tankCapacityLiters")
       then toStr (data "tankCapacityLiters") else tankCapacityInput st;
     pricePer1000Input :=
       match asNumber (data "pricePer1000L") with
       | Some x => toStr (Num x) | None => pricePer1000Input st end;
     deliveryFeeInput :=
       match asNumber (data "deliveryFee") with
       | Some x => toStr (Num x) | None => deliveryFeeInput st end;
     dailyGoalInput :=
       match asNumber (data "dailyDeliveryGoalOrders") with
       | Some x => toStr (Num x) | None => dailyGoalInput st end;
     businessNameInput :=
       default (businessNameInput st) (asString (data "businessName"));
     businessPhoneInput :=
       default (businessPhoneInput st) (asString (data "businessPhone"));
     businessEmailInput :=
       default (businessEmailInput st) (asString (data "businessEmail"));
     businessAddressInput :=
       default (businessAddressInput st) (asString (data "businessAddress"));
     businessWhatsappInput :=
       default (businessWhatsappInput st) (asString (data "businessWhatsapp"));
     businessHoursInput :=
       default (businessHoursInput st) (asString (data "businessHours"));
     businessNoteInput :=
       default (businessNoteInput st) (asString (data "businessNote"));
     pricePer1000Value :=
       default (pricePer1000Value st) (asNumber (data "pricePer1000L"));
     deliveryFeeValue :=
       default (deliveryFeeValue st) (asNumber (data "deliveryFee"));
     dailyGoalValue :=
       default (dailyGoalValue st) (asNumber (data "dailyDeliveryGoalOrders"));
     settingsExists := match snapshot with Some _ => true | None => false end;
     settingsLoading := false;
     settingsError := settingsError st;
     settingsMessage := settingsMessage st |}.

End Builtins.

End OwnerSettings.

(** ** The driver login screen *)

Module DriverLoginPage.

Record State : Type := {
  isSubmitting : bool;
  error : option jsstring;
  accessDenied : bool;
  checkingSession : bool
}.

(** What a handler leaves: the page state, the principal still signed
    in, and the route it replaced the page with, if any. *)
Record Outcome : Type := {
  state : State;
  session : option User;
  destination : option string
}.

Definition deniedMessage (role : option Authz.UserRole) : jsstring :=
  match role with
  | Some _ => lit "This account does not have driver access."
  | None => lit "No role profile found for this account."
  end.

Definition isDriver (role : option Authz.UserRole) : bool :=
  match role with Some Authz.DRIVER => true | _ => false end.


(** [handleSubmit(event)]; [credential] is what
    [signInWithEmailAndPassword] resolved to, or the message of the error
    it rejected with. *)
Definition handleSubmit (users : Collection) (st : State)
    (credential : User + jsstring) : Outcome :=
  match credential with
  | inr message =>
      {| state := {| isSubmitting := false; error := Some message;
                     accessDenied := false;
                     checkingSession := checkingSession st |};
         session := None; destination := None |}
  | inl u =>
      let role := Authz.getUserRole users (uid u) in
      if negb (isDriver role) then
        {| state := {| isSubmitting := false;
                       error := Some (deniedMessage role);
                       accessDenied := true;
                       checkingSession := checkingSession st |};
           session := None; destination := None |}
      else
        {| state := {| isSubmitting := false; error := None;
                       accessDenied := false;
                       checkingSession := checkingSession st |};
           session := Some u; destination := Some "/driver" |}
  end.

End DriverLoginPage.

(** ** The live queries of the screens *)

Module Queries.

(** [where(k, "==", s)] for a string [s], [where(k, "==", null)], and the
    requirement of [orderBy("createdAt", ...)] that the field exists. *)
Definition whereStr (k : string) (s : jsstring) (d : Doc) : bool :=
  match d !! k with Some (Str t) => bool_decide (t = s) | _ => false end.

Definition whereNull (k : string) (d : Doc) : bool :=
  match d !! k with Some Null => true | _ => false end.

Definition ordered (d : Doc) : bool :=
  match d !! "createdAt" with Some _ => true | None => false end.

(** The owner's [statusQuery]. *)
Definition statusQuery (selectedStatus : OrderStatus) (d : Doc) : bool :=
  whereStr "status" (lit (statusName selectedStatus)) d && ordered d.

(** The driver's [assignedQuery]; there is none without a driver uid. *)
Definition assignedQuery (user : option User) (selectedStatus : OrderStatus)
    (d : Doc) : bool :=
  match user with
  | Some u =>
      if emptyStr (uid u) then false
      else whereStr "assignedDriverUid" (uid u) d
           && whereStr "status" (lit (statusName selectedStatus)) d
           && ordered d
  | None => false
  end.

(** The driver's [unassignedQuery], there only on the CONFIRMED tab. *)
Definition unassignedQuery (selectedStatus : OrderStatus) (d : Doc) : bool :=
  bool_decide (selectedStatus = CONFIRMED)
  && whereNull "assignedDriverUid" d
  && whereStr "status" (lit "CONFIRMED") d
  && ordered d.

End Queries.

(** ** The writes the handlers issue, and the transitions they offer *)

Module Writes.

(** The payloads of the updates the owner and driver handlers issue. *)
Inductive updatePayload : Doc -> Prop :=
| owner_status s : updatePayload (OwnerPage.statusPayload s)
| owner_assign sel driver :
    sel <> [] -> updatePayload (OwnerPage.assignPayload sel driver)
| driver_status s : updatePayload (DriverPage.basePayload s)
| driver_claim u order :
    uid u <> [] ->
    updatePayload
      (DriverPage.selfAssign (Some u) order
         (DriverPage.basePayload OUT_FOR_DELIVERY)).

(** The transitions the buttons of each screen stand for. *)
Definition ownerEdge (from to : OrderStatus) : bool :=
  match from, to with
  | PENDING, CONFIRMED | PENDING, CANCELLED
  | CONFIRMED, PENDING | CONFIRMED, CANCELLED => true
  | _, _ => false
  end.

Definition driverEdge (from to : OrderStatus) : bool :=
  match from, to with
  | CONFIRMED, OUT_FOR_DELIVERY | OUT_FOR_DELIVERY, DELIVERED => true
  | _, _ => false
  end.

Definition allStatuses : list OrderStatus :=
  [PENDING; CONFIRMED; OUT_FOR_DELIVERY; DELIVERED; CANCELLED].

(** The status a button of the owner's card leads to from [from]. *)
Definition ownerTarget (b : OwnerPage.Button) (from : OrderStatus)
    : OrderStatus :=
  match b, from with
  | OwnerPage.Confirm, PENDING => CONFIRMED
  | OwnerPage.Cancel, PENDING | OwnerPage.Cancel, CONFIRMED => CANCELLED
  | OwnerPage.RevertToPending, CONFIRMED => PENDING
  | _, _ => from
  end.

(** The status a button of the driver's card leads to from [from]. *)
Definition driverTarget (b : DriverPage.Button) (from : OrderStatus)
    : OrderStatus :=
  match b, from with
  | DriverPage.StartDelivery, CONFIRMED => OUT_FOR_DELIVERY
  | DriverPage.MarkDelivered, OUT_FOR_DELIVERY => DELIVERED
  | _, _ => from
  end.

End Writes.

(** ** More sample data *)

Module SampleMore.

(** A stored order as the customer form creates it. *)
Definition created (status : OrderStatus) (assignee : value) : Doc :=
  <["status" := statusValue status]>
    (<["assignedDriverUid" := assignee]>
       (<["createdAt" := Time 100]>
          (resolve 100 <$>
             CustomerPage.orderPayload Sample.noNumbers Sample.epoch
               Sample.customer (Sample.form (Some Sample.customer))))).

Definition store (status : OrderStatus) (assignee : value) : World :=
  {| orders := <[lit "o1" := created status assignee]> ∅; issued := [] |}.


Definition settingsState : OwnerSettings.State :=
  {| OwnerSettings.tankCapacityInput := lit "5000";
     OwnerSettings.pricePer1000Input := lit "250";
     OwnerSettings.deliveryFeeInput := lit "";
     OwnerSettings.dailyGoalInput := lit "10";
     OwnerSettings.businessNameInput := lit " Aqua ";
     OwnerSettings.businessPhoneInput := [];
     OwnerSettings.businessEmailInput := [];
     OwnerSettings.businessAddressInput := [];
     OwnerSettings.businessWhatsappInput := [];
     OwnerSettings.businessHoursInput := [];
     OwnerSettings.businessNoteInput := [];
     OwnerSettings.pricePer1000Value := 0;
     OwnerSettings.deliveryFeeValue := 0;
     OwnerSettings.dailyGoalValue := 0;
     OwnerSettings.settingsExists := false;
     OwnerSettings.settingsLoading := true;
     OwnerSettings.settingsError := None;
     OwnerSettings.settingsMessage := None |}.

(** A stand-in for [Number] that reads the sample inputs. *)
Definition sampleNumber (s : jsstring) : PrimFloat.float :=
  if bool_decide (s = lit "5000") then 5000%float
  else if bool_decide (s = lit "250") then 250%float
  else if bool_decide (s = lit "10") then 10%float
  else if bool_decide (s = []) then 0%float
  else PrimFloat.nan.

Definition sampleString (v : value) : jsstring :=
  match v with Str s => s | _ => lit "n" end.

(** The store after one valid submission, and the document it holds. *)
Definition firstWorld : World :=
  (CustomerPage.handleSubmit Sample.noNumbers Sample.epoch 5 (lit "o9")
     (Sample.form (Some Sample.customer))
     (Sample.customerState, Lifecycle.initial)).2.

Definition firstDoc : Doc :=
  resolve 5 <$>
    CustomerPage.orderPayload Sample.noNumbers Sample.epoch Sample.customer
      (Sample.form (Some Sample.customer)).

End SampleMore.

(** * Properties *)

(** ** Values and the store *)

Section ValueFacts.

Lemma eqStr_true (v : value) (s : string) :
  eqStr v s = true <-> v = Str (lit s).
Proof.
  destruct v; simpl; try (split; [discriminate | intros H; discriminate H]).
  rewrite bool_decide_eq_true. split; [intros -> | intros [= ->]]; reflexivity.
Qed.

Lemma eqFalse_true (v : value) : eqFalse v = true <-> v = Bool false.
Proof.
  destruct v as [| |[]| | | |]; simpl; split; intros H;
    first [reflexivity | discriminate H].
Qed.

Lemma eqFalse_false (v : value) : v <> Bool false -> eqFalse v = false.
Proof.
  intros H. destruct (eqFalse v) eqn:E; [| reflexivity].
  apply eqFalse_true in E. contradiction.
Qed.


End ValueFacts.

(** ** Numbers *)

Section NumberFacts.

Lemma SFcompare_finite_refl (s : bool) (m : positive) (e : Z) :
  SpecFloat.SFcompare (SpecFloat.S754_finite s m e)
                      (SpecFloat.S754_finite s m e) = Some Eq.
Proof.
  simpl. destruct s; rewrite Z.compare_refl, Pos.compare_cont_refl; reflexivity.
Qed.

(** [!x || x <= 0] holds exactly when [x > 0] does not. *)
Lemma falsy_or_nonpositive (x : PrimFloat.float) :
  falsyNum x || (x <=? 0)%float = negb (0 <? x)%float.
Proof.
  unfold falsyNum, PrimFloat.is_nan, PrimFloat.is_zero.
  rewrite !FloatAxioms.eqb_spec, FloatAxioms.leb_spec, FloatAxioms.ltb_spec.
  change (FloatOps.Prim2SF PrimFloat.zero) with (SpecFloat.S754_zero false).
  change (FloatOps.Prim2SF 0%float) with (SpecFloat.S754_zero false).
  unfold SpecFloat.SFeqb, SpecFloat.SFleb, SpecFloat.SFltb.
  destruct (FloatOps.Prim2SF x) as [s | s | | s m e].
  - reflexivity.
  - destruct s; reflexivity.
  - reflexivity.
  - rewrite SFcompare_finite_refl. destruct s; reflexivity.
Qed.

Lemma positive_not_falsy (x : PrimFloat.float) :
  (0 <? x)%float = true -> falsyNum x = false.
Proof.
  intros H. pose proof (falsy_or_nonpositive x) as E. rewrite H in E.
  simpl in E. apply orb_false_iff in E. apply E.
Qed.

Lemma orZero_positive (x : PrimFloat.float) :
  (0 <? x)%float = true -> orZero x = x.
Proof. intros H. unfold orZero. rewrite (positive_not_falsy x H). reflexivity. Qed.

Lemma positive_orZero (x : PrimFloat.float) :
  (0 <? orZero x)%float = (0 <? x)%float.
Proof.
  unfold orZero. destruct (falsyNum x) eqn:E; [| reflexivity].
  destruct (0 <? x)%float eqn:P; [| reflexivity].
  rewrite (positive_not_falsy x P) in E. discriminate E.
Qed.

End NumberFacts.

(** ** Role resolution *)

Section RoleResolution.

Import Authz.

Lemma getUserRole_active (users : Collection) (u : jsstring) (d : Doc) :
  users !! u = Some d ->
  eqFalse (field d "isActive") = false ->
  forall r, getUserRole users u = Some r <-> field d "role" = Str (lit (roleName r)).
Proof.
  intros Hd Hact r. unfold getUserRole. rewrite Hd, Hact. cbv zeta.
  destruct (eqStr (field d "role") "OWNER") eqn:Ho.
  - apply eqStr_true in Ho. rewrite Ho.
    destruct r; simpl; split; intros H; try reflexivity;
      first [discriminate H | (injection H as H; vm_compute in H; discriminate H)].
  - destruct (eqStr (field d "role") "DRIVER") eqn:Hd'.
    + apply eqStr_true in Hd'. rewrite Hd'.
      destruct r; simpl; split; intros H; try reflexivity;
        first [discriminate H | (injection H as H; vm_compute in H; discriminate H)].
    + split; [discriminate |].
      intros H. destruct r; simpl in H.
      * apply eqStr_true in H. congruence.
      * apply eqStr_true in H. congruence.
Qed.

(** C6. [getUserRole] answers [null] when the principal has no profile
    document, and when the profile's [isActive] is [false] whatever the
    stored role; in every other case it answers the stored role exactly
    when that role is ["OWNER"] or ["DRIVER"], and [null] for any other
    stored role value. *)
Theorem getUserRole_spec (users : Collection) (u : jsstring) :
  (users !! u = None -> getUserRole users u = None)
  /\ (forall d, users !! u = Some d ->
        field d "isActive" = Bool false -> getUserRole users u = None)
  /\ (forall d, users !! u = Some d ->
        field d "isActive" <> Bool false ->
        (forall r, getUserRole users u = Some r
                   <-> field d "role" = Str (lit (roleName r)))
        /\ (field d "role" <> Str (lit "OWNER") ->
            field d "role" <> Str (lit "DRIVER") ->
            getUserRole users u = None)).
Proof.
  split; [| split].
  - intros H. unfold getUserRole. rewrite H. reflexivity.
  - intros d Hd Hact. unfold getUserRole. rewrite Hd, Hact. reflexivity.
  - intros d Hd Hact.
    pose proof (eqFalse_false _ Hact) as Hf.
    split.
    + apply getUserRole_active; assumption.
    + intros Ho Hdr.
      destruct (getUserRole users u) as [r |] eqn:E; [| reflexivity].
      apply (getUserRole_active users u d Hd Hf) in E.
      destruct r; simpl in E; contradiction.
Qed.

End RoleResolution.

Section RoleResolutionDefaults.

Import Authz.


End RoleResolutionDefaults.

Lemma getUserRole_spec_witness :
  Sample.users !! lit "u3" = Some (Sample.profile "OWNER" (Some false))
  /\ field (Sample.profile "OWNER" (Some false)) "isActive" = Bool false
  /\ Authz.getUserRole Sample.users (lit "u3") = None.
Proof.
  split; [vm_compute; reflexivity | split; [vm_compute; reflexivity |]].
  apply (proj1 (proj2 (getUserRole_spec Sample.users (lit "u3")))
           (Sample.profile "OWNER" (Some false))); vm_compute; reflexivity.
Defined.


(** ** Dashboard metrics *)

Section Dashboard.

Import OwnerPage Reference.

Lemma countFrom_step (x : PrimFloat.float) (n : nat) :
  countFrom (x + 1)%float n = countFrom x (S n).
Proof.
  unfold countFrom. induction n as [| n IH]; simpl.
  - reflexivity.
  - simpl in IH. rewrite IH. reflexivity.
Qed.

Example jsCount_small :
  map jsCount [0; 1; 2; 3; 10] = [0; 1; 2; 3; 10]%float.
Proof. reflexivity. Qed.

Lemma statusName_inj (k k' : OrderStatus) :
  lit (statusName k) = lit (statusName k') -> k = k'.
Proof. destruct k, k'; intros H; first [reflexivity | vm_compute in H; discriminate H]. Qed.

Lemma hasStatus_truthy (k : OrderStatus) (d : Doc) :
  hasStatus k d = true -> truthy (field d "status") = true.
Proof.
  unfold hasStatus. intros H. apply eqStr_true in H. rewrite H.
  destruct k; reflexivity.
Qed.

Lemma statusKey_hasStatus (k : OrderStatus) (d : Doc) :
  statusKey (field d "status") = Some k <-> hasStatus k d = true.
Proof.
  unfold hasStatus, statusKey, STATUS_TABS.
  destruct (field d "status") as [| | b | x | s | t |];
    try (simpl; split; discriminate).
  split.
  - intros H. apply find_some in H. apply H.
  - intros H. apply eqStr_true in H. injection H as ->.
    destruct k; vm_compute; reflexivity.
Qed.

Lemma tally_total (m : DashboardMetrics) (d : Doc) :
  total (tally m d) = (total m + 1)%float.
Proof. unfold tally. destruct (eqStr (field d "status") "DELIVERED"); reflexivity. Qed.

Lemma tally_liters (m : DashboardMetrics) (d : Doc) :
  liters (tally m d) = (liters m + docLiters d)%float.
Proof. unfold tally. destruct (eqStr (field d "status") "DELIVERED"); reflexivity. Qed.

Lemma tally_byStatus (m : DashboardMetrics) (d : Doc) (k : OrderStatus) :
  byStatus (tally m d) k
  = if hasStatus k d then (byStatus m k + 1)%float else byStatus m k.
Proof.
  assert (H : byStatus (tally m d) k
              = match statusKey (field d "status") with
                | Some k0 => if truthy (field d "status")
                             then bump (byStatus m) k0 k else byStatus m k
                | None => byStatus m k
                end).
  { unfold tally.
    destruct (eqStr (field d "status") "DELIVERED"); simpl;
      destruct (statusKey (field d "status"));
      try destruct (truthy (field d "status")); reflexivity. }
  rewrite H. clear H.
  destruct (statusKey (field d "status")) as [k0 |] eqn:E.
  - apply statusKey_hasStatus in E.
    rewrite (hasStatus_truthy k0 d E). unfold bump.
    destruct (bool_decide (k = k0)) eqn:Hk.
    + apply bool_decide_eq_true in Hk. subst k0. rewrite E. reflexivity.
    + apply bool_decide_eq_false in Hk.
      destruct (hasStatus k d) eqn:E'; [| reflexivity].
      exfalso. apply Hk. apply statusName_inj.
      unfold hasStatus in E, E'. apply eqStr_true in E, E'. congruence.
  - destruct (hasStatus k d) eqn:E'; [| reflexivity].
    apply statusKey_hasStatus in E'. congruence.
Qed.

Lemma tally_deliveredOrders (m : DashboardMetrics) (d : Doc) :
  deliveredOrders (tally m d)
  = if hasStatus DELIVERED d then (deliveredOrders m + 1)%float
    else deliveredOrders m.
Proof.
  unfold tally, hasStatus. simpl statusName.
  destruct (eqStr (field d "status") "DELIVERED"); reflexivity.
Qed.

Lemma tally_deliveredLiters (m : DashboardMetrics) (d : Doc) :
  deliveredLiters (tally m d)
  = if hasStatus DELIVERED d then (deliveredLiters m + docLiters d)%float
    else deliveredLiters m.
Proof.
  unfold tally, hasStatus. simpl statusName.
  destruct (eqStr (field d "status") "DELIVERED"); reflexivity.
Qed.

(** The fold from any starting record, field by field. *)
Lemma fold_tally (snapshot : list Doc) (m : DashboardMetrics) :
  let r := fold_left tally snapshot m in
  total r = countFrom (total m) (length snapshot)
  /\ liters r = fold_left PrimFloat.add (map docLiters snapshot) (liters m)
  /\ (forall k, byStatus r k
                = countFrom (byStatus m k) (length (withStatus k snapshot)))
  /\ deliveredOrders r
     = countFrom (deliveredOrders m) (length (withStatus DELIVERED snapshot))
  /\ deliveredLiters r
     = fold_left PrimFloat.add
         (map docLiters (withStatus DELIVERED snapshot)) (deliveredLiters m).
Proof.
  revert m. induction snapshot as [| d ds IH]; intros m.
  - simpl. repeat split; reflexivity.
  - cbn zeta in *. cbn [fold_left length map].
    destruct (IH (tally m d)) as (Ht & Hl & Hb & Hdo & Hdl).
    split; [| split; [| split; [| split]]].
    + rewrite Ht, tally_total. apply countFrom_step.
    + rewrite Hl, tally_liters. reflexivity.
    + intros k. rewrite Hb, tally_byStatus. unfold withStatus.
      cbn [List.filter]. destruct (hasStatus k d); [| reflexivity].
      apply countFrom_step.
    + rewrite Hdo, tally_deliveredOrders. unfold withStatus.
      cbn [List.filter]. destruct (hasStatus DELIVERED d); [| reflexivity].
      apply countFrom_step.
    + rewrite Hdl, tally_deliveredLiters. unfold withStatus.
      cbn [List.filter]. destruct (hasStatus DELIVERED d); reflexivity.
Qed.

(** C4. For every snapshot of today's orders the dashboard fold starts
    from the empty record and yields the number of orders, the sum of the
    liters, for each of the five statuses the number of orders in it, the
    number of delivered orders and the sum of their liters. The delivered
    revenue is [(deliveredLiters / 1000) * pricePer1000 + deliveryFee *
    deliveredOrders] when [pricePer1000] is positive and zero otherwise.
    With three pending orders of 100, 200 and 50 litres, two delivered
    ones of 1000 and 500 litres, a price of 250 and a fee of 20, this is
    1500 delivered litres, 2 delivered orders and a revenue of 415.
    (Counts and sums are the binary64 ones the browser computes; the fee
    enters as the constant [deliveryFee] of the source, which reads a fee
    that is not a number as zero.) *)
Theorem todayMetrics_spec :
  (forall snapshot : list Doc,
     let m := todayMetrics snapshot in
     total m = jsCount (length snapshot)
     /\ liters m = jsSum (map docLiters snapshot)
     /\ (forall k, byStatus m k = jsCount (length (withStatus k snapshot)))
     /\ deliveredOrders m = jsCount (length (withStatus DELIVERED snapshot))
     /\ deliveredLiters m = jsSum (map docLiters (withStatus DELIVERED snapshot)))
  /\ (forall (m : DashboardMetrics) (pricePer1000 feeValue : PrimFloat.float),
        let deliveryFee := orZero feeValue in
        deliveredRevenueToday m pricePer1000 feeValue
        = if (0 <? pricePer1000)%float
          then (deliveredLiters m / 1000 * pricePer1000
                + deliveryFee * deliveredOrders m)%float
          else 0%float)
  /\ (let m := todayMetrics Sample.today in
      total m = 5%float
      /\ liters m = 1850%float
      /\ map (byStatus m) STATUS_TABS = [3; 0; 0; 2; 0]%float
      /\ deliveredLiters m = 1500%float
      /\ deliveredOrders m = 2%float
      /\ deliveredRevenueToday m 250 20 = 415%float).
Proof.
  split; [| split].
  - intros snapshot. exact (fold_tally snapshot createEmptyMetrics).
  - intros m pricePer1000 feeValue. unfold deliveredRevenueToday.
    cbv zeta. rewrite positive_orZero.
    destruct (0 <? pricePer1000)%float eqn:P; [| reflexivity].
    rewrite (orZero_positive pricePer1000 P). reflexivity.
  - vm_compute. repeat split; reflexivity.
Qed.

End Dashboard.

(** ** Writes to the store *)

Section StoreFacts.

Lemma merged_lookup (now : Z) (p d : Doc) (k : string) :
  ((resolve now <$> p) ∪ d) !! k
  = match p !! k with Some v => Some (resolve now v) | None => d !! k end.
Proof.
  rewrite lookup_union, lookup_fmap.
  destruct (p !! k); simpl; destruct (d !! k); reflexivity.
Qed.

Lemma merged_field (now : Z) (p d : Doc) (k : string) :
  field ((resolve now <$> p) ∪ d) k
  = match p !! k with Some v => resolve now v | None => field d k end.
Proof. unfold field. rewrite merged_lookup. destruct (p !! k); reflexivity. Qed.

Lemma updateDoc_found (now : Z) (i : jsstring) (p d : Doc) (w : World) :
  orders w !! i = Some d ->
  updateDoc now i p w
  = (true, {| orders := <[i := (resolve now <$> p) ∪ d]> (orders w);
              issued := issued w ++ [UpdateDoc i p] |}).
Proof. intros H. unfold updateDoc. rewrite H. reflexivity. Qed.

Lemma updateDoc_issued (now : Z) (i : jsstring) (p : Doc) (w : World) :
  issued (updateDoc now i p w).2 = issued w ++ [UpdateDoc i p].
Proof. unfold updateDoc. destruct (orders w !! i); reflexivity. Qed.

Lemma updateDoc_other (now : Z) (i j : jsstring) (p : Doc) (w : World) :
  i <> j -> orders (updateDoc now i p w).2 !! j = orders w !! j.
Proof.
  intros Hne. unfold updateDoc. destruct (orders w !! i); simpl.
  - apply lookup_insert_ne. exact Hne.
  - reflexivity.
Qed.

(** What an update leaves of a stored document. *)
Lemma updateDoc_same (now : Z) (i : jsstring) (p d : Doc) (w : World) :
  orders w !! i = Some d ->
  orders (updateDoc now i p w).2 !! i = Some ((resolve now <$> p) ∪ d).
Proof.
  intros H. rewrite (updateDoc_found now i p d w H). simpl.
  apply lookup_insert_eq.
Qed.

Lemma nullish_coalesce_str (a : value) (s : jsstring) :
  nullish (coalesce a (Str s)) = false.
Proof. unfold coalesce. destruct (nullish a) eqn:E; [reflexivity | exact E]. Qed.

End StoreFacts.

(** ** The driver's transitions *)

Section DriverTransitions.

Import DriverPage.

Lemma eqStr_false (v : value) (s : string) :
  v <> Str (lit s) -> eqStr v s = false.
Proof.
  intros H. destruct (eqStr v s) eqn:E; [| reflexivity].
  apply eqStr_true in E. contradiction.
Qed.

Lemma start_delivery_rejected (now : Z) (user : option User)
    (order : Order.t) (s : State * World) :
  eqStr (Order.status order) "CONFIRMED" = false ->
  updateStatus now user order OUT_FOR_DELIVERY s
  = ({| actionMessage := Some noLongerConfirmed |}, s.2).
Proof. intros H. unfold updateStatus. rewrite H. reflexivity. Qed.

Lemma mark_delivered_rejected (now : Z) (user : option User)
    (order : Order.t) (s : State * World) :
  eqStr (Order.status order) "OUT_FOR_DELIVERY" = false ->
  updateStatus now user order DELIVERED s
  = ({| actionMessage := Some notOutForDelivery |}, s.2).
Proof. intros H. unfold updateStatus. rewrite H. reflexivity. Qed.



End DriverTransitions.


Section DriverClaim.

Import DriverPage.

Lemma basePayload_lookup (status : OrderStatus) :
  basePayload status !! "status" = Some (statusValue status)
  /\ basePayload status !! "updatedAt" = Some ServerTimestamp
  /\ forall k, k <> "status" -> k <> "updatedAt" -> basePayload status !! k = None.
Proof.
  unfold basePayload. split; [| split].
  - rewrite lookup_insert_ne by discriminate. apply lookup_insert_eq.
  - apply lookup_insert_eq.
  - intros k H1 H2. rewrite !lookup_insert_ne by congruence. apply lookup_empty.
Qed.

Lemma selfAssign_lookup (user : option User) (order : Order.t) (p : Doc) :
  selfAssign user order p !! "assignedDriverUid" = Some (driverUid user)
  /\ (exists n, selfAssign user order p !! "assignedDriverName" = Some n
                /\ nullish n = false)
  /\ forall k, k <> "assignedDriverUid" -> k <> "assignedDriverName" ->
               selfAssign user order p !! k = p !! k.
Proof.
  unfold selfAssign. split; [| split].
  - rewrite lookup_insert_ne by discriminate. apply lookup_insert_eq.
  - eexists. split; [apply lookup_insert_eq | apply nullish_coalesce_str].
  - intros k H1 H2. rewrite !lookup_insert_ne by congruence. reflexivity.
Qed.

(** The update start-delivery issues for an order it accepts. *)
Lemma start_delivery_accepted (now : Z) (user : option User)
    (order : Order.t) (st : State) (w : World) :
  Order.status order = statusValue CONFIRMED ->
  updateStatus now user order OUT_FOR_DELIVERY (st, w)
  = ({| actionMessage := None |},
     (updateDoc now (Order.id order)
        (if negb (truthy (Order.assignedDriverUid order))
            && truthy (driverUid user)
         then selfAssign user order (basePayload OUT_FOR_DELIVERY)
         else basePayload OUT_FOR_DELIVERY) w).2).
Proof. intros H. unfold updateStatus. rewrite H. reflexivity. Qed.

(** C2. Start-delivery by driver [u] on a CONFIRMED order without an
    assigned driver issues exactly one update of that one document, whose
    payload sets the status to OUT_FOR_DELIVERY together with
    [assignedDriverUid = u.uid] and a non-null [assignedDriverName]; the
    stored document passes in that single write from its previous content
    to one with the new status and the assignment, every other field but
    the timestamp kept. On an order that already has an assigned driver
    the one update carries the status and the timestamp only, and the
    stored assignment fields stay as they were. *)
Theorem claim_and_advance (now : Z) (u : User) (order : Order.t)
    (st : State) (w : World) :
  Order.status order = statusValue CONFIRMED ->
  uid u <> [] ->
  let w' := (updateStatus now (Some u) order OUT_FOR_DELIVERY (st, w)).2 in
  (Order.assignedDriverUid order = Null ->
     exists payload,
       issued w' = issued w ++ [UpdateDoc (Order.id order) payload]
       /\ payload !! "status" = Some (statusValue OUT_FOR_DELIVERY)
       /\ payload !! "assignedDriverUid" = Some (Str (uid u))
       /\ (exists n, payload !! "assignedDriverName" = Some n
                     /\ nullish n = false)
       /\ forall d, orders w !! Order.id order = Some d ->
            exists d', orders w' !! Order.id order = Some d'
              /\ field d' "status" = statusValue OUT_FOR_DELIVERY
              /\ field d' "assignedDriverUid" = Str (uid u)
              /\ nullish (field d' "assignedDriverName") = false
              /\ forall k, k <> "status" -> k <> "updatedAt" ->
                   k <> "assignedDriverUid" -> k <> "assignedDriverName" ->
                   d' !! k = d !! k)
  /\ (truthy (Order.assignedDriverUid order) = true ->
        exists payload,
          issued w' = issued w ++ [UpdateDoc (Order.id order) payload]
          /\ payload !! "status" = Some (statusValue OUT_FOR_DELIVERY)
          /\ payload !! "assignedDriverUid" = None
          /\ payload !! "assignedDriverName" = None
          /\ forall d, orders w !! Order.id order = Some d ->
               exists d', orders w' !! Order.id order = Some d'
                 /\ field d' "status" = statusValue OUT_FOR_DELIVERY
                 /\ d' !! "assignedDriverUid" = d !! "assignedDriverUid"
                 /\ d' !! "assignedDriverName" = d !! "assignedDriverName"
                 /\ forall k, k <> "status" -> k <> "updatedAt" ->
                      d' !! k = d !! k).
Proof.
  intros Hst Hu w'. subst w'.
  rewrite (start_delivery_accepted now (Some u) order st w Hst).
  cbn [snd]. split.
  - intros Hnull. rewrite Hnull.
    assert (Ht : truthy (driverUid (Some u)) = true).
    { simpl. destruct (uid u); [contradiction | reflexivity]. }
    rewrite Ht. cbn [truthy negb andb].
    set (p := selfAssign (Some u) order (basePayload OUT_FOR_DELIVERY)).
    destruct (selfAssign_lookup (Some u) order (basePayload OUT_FOR_DELIVERY))
      as (Huid & (n & Hn & Hnn) & Hrest).
    destruct (basePayload_lookup OUT_FOR_DELIVERY) as (Hs & Hup & Hbase).
    fold p in Huid, Hn, Hrest.
    assert (Hps : p !! "status" = Some (statusValue OUT_FOR_DELIVERY)).
    { rewrite Hrest by discriminate. exact Hs. }
    exists p. split; [apply updateDoc_issued |].
    split; [exact Hps |]. split; [exact Huid |].
    split; [exists n; split; assumption |].
    intros d Hd. eexists. split; [apply (updateDoc_same now _ p d w Hd) |].
    split; [rewrite merged_field, Hps; reflexivity |].
    split; [rewrite merged_field, Huid; reflexivity |].
    split.
    { rewrite merged_field, Hn.
      destruct n; simpl in *; first [discriminate Hnn | reflexivity]. }
    intros k H1 H2 H3 H4. rewrite merged_lookup, Hrest by assumption.
    rewrite Hbase by assumption. reflexivity.
  - intros Htr. rewrite Htr. cbn [negb andb].
    destruct (basePayload_lookup OUT_FOR_DELIVERY) as (Hs & Hup & Hbase).
    exists (basePayload OUT_FOR_DELIVERY).
    split; [apply updateDoc_issued |]. split; [exact Hs |].
    split; [apply Hbase; discriminate |]. split; [apply Hbase; discriminate |].
    intros d Hd. eexists.
    split; [apply (updateDoc_same now _ _ d w Hd) |].
    split; [rewrite merged_field, Hs; reflexivity |].
    split; [rewrite merged_lookup, Hbase by discriminate; reflexivity |].
    split; [rewrite merged_lookup, Hbase by discriminate; reflexivity |].
    intros k H1 H2. rewrite merged_lookup, Hbase by assumption. reflexivity.
Qed.

End DriverClaim.

Lemma claim_and_advance_witness :
  let order := toOrder (lit "o1") (Sample.orderDoc CONFIRMED 1000) in
  let st := {| DriverPage.actionMessage := None |} in
  let w' := (DriverPage.updateStatus 7 (Some Sample.driver) order
               OUT_FOR_DELIVERY (st, Sample.world CONFIRMED)).2 in
  Order.status order = statusValue CONFIRMED
  /\ uid Sample.driver <> []
  /\ Order.assignedDriverUid order = Null
  /\ exists payload,
       issued w' = [UpdateDoc (lit "o1") payload]
       /\ payload !! "status" = Some (statusValue OUT_FOR_DELIVERY)
       /\ payload !! "assignedDriverUid" = Some (Str (lit "d7")).
Proof.
  assert (H1 : Order.status (toOrder (lit "o1") (Sample.orderDoc CONFIRMED 1000))
               = statusValue CONFIRMED) by (vm_compute; reflexivity).
  assert (H2 : uid Sample.driver <> [])
    by (intros E; vm_compute in E; discriminate E).
  assert (H3 : Order.assignedDriverUid
                 (toOrder (lit "o1") (Sample.orderDoc CONFIRMED 1000)) = Null)
    by (vm_compute; reflexivity).
  split; [exact H1 |]. split; [exact H2 |]. split; [exact H3 |].
  destruct (proj1 (claim_and_advance 7 Sample.driver
                     (toOrder (lit "o1") (Sample.orderDoc CONFIRMED 1000))
                     {| DriverPage.actionMessage := None |}
                     (Sample.world CONFIRMED) H1 H2) H3)
    as (payload & Hi & Hs & Hu & _).
  exists payload. split; [exact Hi |]. split; [exact Hs | exact Hu].
Defined.

(** ** The owner's operations *)

Section OwnerOperations.

Import OwnerPage.

Lemma statusPayload_lookup (status : OrderStatus) :
  statusPayload status !! "status" = Some (statusValue status)
  /\ statusPayload status !! "updatedAt" = Some ServerTimestamp
  /\ forall k, k <> "status" -> k <> "updatedAt" ->
               statusPayload status !! k = None.
Proof.
  unfold statusPayload. split; [| split].
  - rewrite lookup_insert_ne by discriminate. apply lookup_insert_eq.
  - apply lookup_insert_eq.
  - intros k H1 H2. rewrite !lookup_insert_ne by congruence. apply lookup_empty.
Qed.

Lemma assignPayload_lookup (sel : jsstring) (driver : option DriverOption) :
  assignPayload sel driver !! "assignedDriverUid" = Some (Str sel)
  /\ assignPayload sel driver !! "assignedDriverName"
     = Some (Str (match driver with Some d => name d | None => lit "Driver" end))
  /\ assignPayload sel driver !! "updatedAt" = Some ServerTimestamp
  /\ forall k, k <> "assignedDriverUid" -> k <> "assignedDriverName" ->
               k <> "updatedAt" -> assignPayload sel driver !! k = None.
Proof.
  unfold assignPayload. split; [| split; [| split]].
  - rewrite !lookup_insert_ne by discriminate. apply lookup_insert_eq.
  - rewrite lookup_insert_ne by discriminate. apply lookup_insert_eq.
  - apply lookup_insert_eq.
  - intros k H1 H2 H3. rewrite !lookup_insert_ne by congruence.
    apply lookup_empty.
Qed.



End OwnerOperations.

Section OwnerAssignment.

Import OwnerPage.



End OwnerAssignment.


(** ** Which operations check the status *)

Section TransitionChecks.

Lemma owner_updateStatus_effect (now : Z) (orderId : jsstring)
    (status : OrderStatus) (st : OwnerPage.State) (w : World) :
  let r := OwnerPage.updateStatus now orderId status (st, w) in
  r.1 = st
  /\ issued r.2 = issued w ++ [UpdateDoc orderId (OwnerPage.statusPayload status)]
  /\ forall d, orders w !! orderId = Some d ->
               Lifecycle.storedStatus r.2 orderId = statusValue status.
Proof.
  cbv zeta. unfold OwnerPage.updateStatus. cbn [fst snd].
  split; [reflexivity |]. split; [apply updateDoc_issued |].
  intros d Hd. unfold Lifecycle.storedStatus.
  rewrite (updateDoc_same now orderId _ d w Hd), merged_field.
  destruct (statusPayload_lookup status) as (Hs & _). rewrite Hs.
  destruct status; reflexivity.
Qed.

Lemma owner_offers (st : OwnerPage.State) (order : Order.t) :
  (OwnerPage.offered st OwnerPage.Confirm order = true
   <-> Order.status order = statusValue PENDING)
  /\ (OwnerPage.offered st OwnerPage.Cancel order = true
      <-> Order.status order = statusValue PENDING
          \/ Order.status order = statusValue CONFIRMED)
  /\ (OwnerPage.offered st OwnerPage.RevertToPending order = true
      <-> Order.status order = statusValue CONFIRMED).
Proof.
  unfold OwnerPage.offered. split; [| split].
  - apply eqStr_true.
  - rewrite orb_true_iff, !eqStr_true. reflexivity.
  - apply eqStr_true.
Qed.

(** C1, as the code has it. The driver's start-delivery and
    mark-delivered compare the status of the order object they are given
    with CONFIRMED, respectively OUT_FOR_DELIVERY, and on a mismatch set a
    message and issue no write, leaving the store as it was. The owner's
    confirm, cancel and revert-to-pending make no such check: their
    buttons are rendered only on a card whose order object is PENDING
    (confirm, cancel) or CONFIRMED (revert, cancel), and [updateStatus]
    itself issues the status update whatever the stored status is,
    without reporting anything. *)
Theorem transition_checks :
  (forall now user order st w,
     Order.status order <> statusValue CONFIRMED ->
     DriverPage.updateStatus now user order OUT_FOR_DELIVERY (st, w)
     = ({| DriverPage.actionMessage := Some DriverPage.noLongerConfirmed |}, w))
  /\ (forall now user order st w,
        Order.status order <> statusValue OUT_FOR_DELIVERY ->
        DriverPage.updateStatus now user order DELIVERED (st, w)
        = ({| DriverPage.actionMessage := Some DriverPage.notOutForDelivery |}, w))
  /\ (forall now orderId status st w,
        let r := OwnerPage.updateStatus now orderId status (st, w) in
        r.1 = st
        /\ issued r.2
           = issued w ++ [UpdateDoc orderId (OwnerPage.statusPayload status)]
        /\ forall d, orders w !! orderId = Some d ->
                     Lifecycle.storedStatus r.2 orderId = statusValue status)
  /\ (forall st order,
        (OwnerPage.offered st OwnerPage.Confirm order = true
         <-> Order.status order = statusValue PENDING)
        /\ (OwnerPage.offered st OwnerPage.Cancel order = true
            <-> Order.status order = statusValue PENDING
                \/ Order.status order = statusValue CONFIRMED)
        /\ (OwnerPage.offered st OwnerPage.RevertToPending order = true
            <-> Order.status order = statusValue CONFIRMED)).
Proof.
  split; [| split; [| split]].
  - intros now user order st w H.
    apply (start_delivery_rejected now user order (st, w)).
    apply eqStr_false. exact H.
  - intros now user order st w H.
    apply (mark_delivered_rejected now user order (st, w)).
    apply eqStr_false. exact H.
  - intros now orderId status st w. apply owner_updateStatus_effect.
  - intros st order. apply owner_offers.
Qed.

End TransitionChecks.

Lemma transition_checks_witness :
  let order := toOrder (lit "o1") (Sample.orderDoc PENDING 1000) in
  Order.status order <> statusValue OUT_FOR_DELIVERY
  /\ DriverPage.updateStatus 7 (Some Sample.driver) order DELIVERED
       (Sample.driverState, Sample.world PENDING)
     = ({| DriverPage.actionMessage := Some DriverPage.notOutForDelivery |},
        Sample.world PENDING).
Proof.
  assert (H : Order.status (toOrder (lit "o1") (Sample.orderDoc PENDING 1000))
              <> statusValue OUT_FOR_DELIVERY).
  { intros E. vm_compute in E. discriminate E. }
  split; [exact H |].
  exact (proj1 (proj2 transition_checks) 7%Z (Some Sample.driver)
           (toOrder (lit "o1") (Sample.orderDoc PENDING 1000))
           Sample.driverState (Sample.world PENDING) H).
Defined.

(** The owner's confirm issued for an order the store holds as CANCELLED:
    the precondition PENDING does not hold, yet the status is overwritten,
    one write is issued and no message is set. *)
Lemma owner_confirm_overwrites_cancelled :
  let w := Sample.world CANCELLED in
  let r := OwnerPage.updateStatus 7 (lit "o1") CONFIRMED
             (Sample.ownerState, w) in
  Lifecycle.storedStatus w (lit "o1") = statusValue CANCELLED
  /\ Lifecycle.storedStatus w (lit "o1") <> statusValue PENDING
  /\ Lifecycle.storedStatus r.2 (lit "o1") = statusValue CONFIRMED
  /\ orders r.2 <> orders w
  /\ length (issued r.2) = 1
  /\ OwnerPage.assignmentMessage r.1 = None.
Proof.
  cbv zeta.
  assert (Hafter : Lifecycle.storedStatus
            (OwnerPage.updateStatus 7 (lit "o1") CONFIRMED
               (Sample.ownerState, Sample.world CANCELLED)).2 (lit "o1")
          = statusValue CONFIRMED) by (vm_compute; reflexivity).
  split; [vm_compute; reflexivity |].
  split; [intros E; vm_compute in E; discriminate E |].
  split; [exact Hafter |].
  split.
  - intros E. unfold Lifecycle.storedStatus in Hafter. rewrite E in Hafter.
    vm_compute in Hafter. discriminate Hafter.
  - split; vm_compute; reflexivity.
Qed.

(** ** Terminal statuses *)

Section Terminality.

Import Lifecycle.

Variable splitNumbers : string -> jsstring -> list PrimFloat.float.
Variable timestampFromDate :
  PrimFloat.float -> PrimFloat.float -> PrimFloat.float ->
  PrimFloat.float -> PrimFloat.float -> Z.






Lemma driver_updateStatus_other (now : Z) (user : option User)
    (order : Order.t) (status : OrderStatus) (st : DriverPage.State)
    (w : World) (j : jsstring) :
  Order.id order <> j ->
  orders (DriverPage.updateStatus now user order status (st, w)).2 !! j
  = orders w !! j.
Proof.
  intros Hne. unfold DriverPage.updateStatus.
  destruct (bool_decide (status = OUT_FOR_DELIVERY)
            && negb (eqStr (Order.status order) "CONFIRMED")); [reflexivity |].
  destruct (bool_decide (status = DELIVERED)
            && negb (eqStr (Order.status order) "OUT_FOR_DELIVERY"));
    [reflexivity |].
  cbn [snd]. apply updateDoc_other. exact Hne.
Qed.


(** A submission either leaves the store alone or adds one document. *)
Lemma handleSubmit_world (now : Z) (newId : jsstring)
    (f : CustomerPage.Form) (st : CustomerPage.State) (w : World) :
  let w' := (CustomerPage.handleSubmit splitNumbers timestampFromDate
               now newId f (st, w)).2 in
  w' = w
  \/ exists u, CustomerPage.authUser f = Some u
       /\ w' = (addDoc now newId
                  (CustomerPage.orderPayload splitNumbers timestampFromDate u f)
                  w).2.
Proof.
  cbv zeta. unfold CustomerPage.handleSubmit.
  destruct (CustomerPage.authUser f) as [u |]; [| left; reflexivity].
  repeat match goal with
         | |- context [if ?c then _ else _] => destruct c; [left; reflexivity |]
         end.
  right. exists u. split; reflexivity.
Qed.

(** The assignment writes no status, whatever order object it is run on. *)
Lemma assign_keeps_status (now : Z) (order : Order.t)
    (st : OwnerPage.State) (w : World) (i : jsstring) :
  storedStatus (OwnerPage.handleAssignDriver now order (st, w)).2 i
  = storedStatus w i.
Proof.
  unfold OwnerPage.handleAssignDriver. cbn [fst snd].
  destruct (OwnerPage.driverSelections st !! Order.id order) as [sel |];
    [| reflexivity].
  destruct (emptyStr sel); [reflexivity |].
  cbn [snd]. unfold storedStatus.
  destruct (decide (Order.id order = i)) as [<- | Hne].
  - destruct (orders w !! Order.id order) as [d |] eqn:Hd.
    + rewrite (updateDoc_same now _ _ d w Hd), merged_field.
      destruct (assignPayload_lookup sel (OwnerPage.selectedDriver st sel))
        as (_ & _ & _ & Hrest).
      rewrite Hrest by discriminate. reflexivity.
    + unfold updateDoc. rewrite Hd. cbn [snd orders]. rewrite Hd. reflexivity.
  - rewrite updateDoc_other by exact Hne. reflexivity.
Qed.



End Terminality.

(** ** The assignment pair *)

Section AssignmentPair.

Import Lifecycle.

Variable splitNumbers : string -> jsstring -> list PrimFloat.float.
Variable timestampFromDate :
  PrimFloat.float -> PrimFloat.float -> PrimFloat.float ->
  PrimFloat.float -> PrimFloat.float -> Z.

Lemma resolve_nullish (now : Z) (v : value) :
  nullish v = false -> nullish (resolve now v) = false.
Proof. destruct v; simpl; intros H; first [discriminate H | reflexivity]. Qed.

(** An update that writes neither assignment field keeps the pair. *)
Lemma paired_untouched (now : Z) (p d : Doc) :
  p !! "assignedDriverUid" = None ->
  p !! "assignedDriverName" = None ->
  paired d -> paired ((resolve now <$> p) ∪ d).
Proof.
  intros Hu Hn H. unfold paired. rewrite !merged_field, Hu, Hn. exact H.
Qed.

(** An update that sets both assignment fields establishes the pair. *)
Lemma paired_set (now : Z) (p d : Doc) (vu vn : value) :
  p !! "assignedDriverUid" = Some vu -> nullish vu = false ->
  p !! "assignedDriverName" = Some vn -> nullish vn = false ->
  paired ((resolve now <$> p) ∪ d).
Proof.
  intros Hu Hvu Hn Hvn. right. rewrite !merged_field, Hu, Hn.
  split; apply resolve_nullish; assumption.
Qed.

Lemma allPaired_update (now : Z) (i : jsstring) (p : Doc) (w : World) :
  allPaired w ->
  (forall d, orders w !! i = Some d -> paired d ->
             paired ((resolve now <$> p) ∪ d)) ->
  allPaired (updateDoc now i p w).2.
Proof.
  intros Hall Hp. unfold updateDoc.
  destruct (orders w !! i) as [old |] eqn:Hi; [| exact Hall].
  intros j dj. cbn [snd orders]. rewrite lookup_insert.
  case_decide as Hij.
  - intros [= <-]. apply Hp; [reflexivity |]. apply (Hall i). exact Hi.
  - apply Hall.
Qed.

Lemma new_order_paired (now : Z) (u : User) (f : CustomerPage.Form) :
  paired (resolve now <$>
            CustomerPage.orderPayload splitNumbers timestampFromDate u f).
Proof. left. split; reflexivity. Qed.

Lemma submit_keeps_pairs (now : Z) (newId : jsstring)
    (f : CustomerPage.Form) (st : CustomerPage.State) (w : World) :
  allPaired w ->
  allPaired (CustomerPage.handleSubmit splitNumbers timestampFromDate
               now newId f (st, w)).2.
Proof.
  intros Hall.
  destruct (handleSubmit_world splitNumbers timestampFromDate now newId f st w)
    as [-> | (u & _ & ->)]; [exact Hall |].
  intros j dj. cbn [addDoc snd orders]. rewrite lookup_insert.
  case_decide as Hij.
  - intros [= <-]. apply new_order_paired.
  - apply Hall.
Qed.

Lemma owner_keeps_pairs (now : Z) (b : OwnerPage.Button) (order : Order.t)
    (st : OwnerPage.State) (w : World) :
  allPaired w -> allPaired (OwnerPage.press now b order (st, w)).2.
Proof.
  intros Hall.
  assert (Hstatus : forall status,
            allPaired (OwnerPage.updateStatus now (Order.id order) status (st, w)).2).
  { intros status. unfold OwnerPage.updateStatus. cbn [snd].
    apply allPaired_update; [exact Hall |]. intros d _.
    destruct (statusPayload_lookup status) as (_ & _ & Hrest).
    apply paired_untouched; apply Hrest; discriminate. }
  destruct b; cbn [OwnerPage.press]; try apply Hstatus.
  unfold OwnerPage.handleAssignDriver. cbn [fst snd].
  destruct (OwnerPage.driverSelections st !! Order.id order) as [sel |];
    [| exact Hall].
  destruct (emptyStr sel); [exact Hall |].
  cbn [snd]. apply allPaired_update; [exact Hall |]. intros d _ _.
  destruct (assignPayload_lookup sel (OwnerPage.selectedDriver st sel))
    as (Hu & Hn & _).
  exact (paired_set now _ d _ _ Hu eq_refl Hn eq_refl).
Qed.

Lemma driver_keeps_pairs (now : Z) (user : option User) (order : Order.t)
    (status : OrderStatus) (st : DriverPage.State) (w : World) :
  allPaired w ->
  allPaired (DriverPage.updateStatus now user order status (st, w)).2.
Proof.
  intros Hall. unfold DriverPage.updateStatus.
  destruct (bool_decide (status = OUT_FOR_DELIVERY)
            && negb (eqStr (Order.status order) "CONFIRMED")); [exact Hall |].
  destruct (bool_decide (status = DELIVERED)
            && negb (eqStr (Order.status order) "OUT_FOR_DELIVERY"));
    [exact Hall |].
  cbn [snd]. apply allPaired_update; [exact Hall |]. intros d _.
  destruct (basePayload_lookup status) as (_ & _ & Hbase).
  destruct (bool_decide (status = OUT_FOR_DELIVERY)
            && negb (truthy (Order.assignedDriverUid order))
            && truthy (DriverPage.driverUid user)) eqn:Hclaim.
  - intros _.
    destruct (selfAssign_lookup user order (DriverPage.basePayload status))
      as (Hu & (n & Hn & Hnn) & _).
    apply andb_true_iff in Hclaim. destruct Hclaim as [_ Ht].
    refine (paired_set now _ d _ _ Hu _ Hn Hnn).
    destruct user as [u |]; [reflexivity | discriminate Ht].
  - apply paired_untouched; apply Hbase; discriminate.
Qed.

Lemma step_keeps_pairs (w w' : World) :
  step splitNumbers timestampFromDate w w' -> allPaired w -> allPaired w'.
Proof.
  intros Hstep Hall. destruct Hstep.
  - apply submit_keeps_pairs. exact Hall.
  - apply owner_keeps_pairs. exact Hall.
  - apply driver_keeps_pairs. exact Hall.
Qed.

(** C9. A new order is stored with both assignment fields [null]; the
    owner's assignment and the driver's claim write both fields, each with
    a value that is not [null]; the status updates of owner and driver
    write neither. So every handler run keeps, for every stored order,
    the two fields both [null] or both set, and every store reached from
    the empty one has the property, whatever order objects the handlers
    were run on. *)
Theorem assignment_pair_invariant :
  (forall w w', step splitNumbers timestampFromDate w w' ->
                allPaired w -> allPaired w')
  /\ (forall w, rtc (step splitNumbers timestampFromDate) initial w ->
                allPaired w).
Proof.
  split; [exact step_keeps_pairs |].
  assert (Hgen : forall w0 w, rtc (step splitNumbers timestampFromDate) w0 w ->
                              allPaired w0 -> allPaired w).
  { intros w0 w Hrtc. induction Hrtc as [w | w w1 w' Hstep _ IH].
    - intros H. exact H.
    - intros H. apply IH. exact (step_keeps_pairs w w1 Hstep H). }
  intros w Hrtc. apply (Hgen initial w Hrtc).
  intros i d Hd. cbn in Hd. rewrite lookup_empty in Hd. discriminate Hd.
Qed.

End AssignmentPair.

(** ** Order submission *)

Section Submission.

Import CustomerPage.

Variable splitNumbers : string -> jsstring -> list PrimFloat.float.
Variable timestampFromDate :
  PrimFloat.float -> PrimFloat.float -> PrimFloat.float ->
  PrimFloat.float -> PrimFloat.float -> Z.

Lemma emptyStr_true (s : jsstring) : emptyStr s = true <-> s = [].
Proof.
  destruct s; simpl; split; intros H; first [reflexivity | discriminate H].
Qed.

Example trim_inner_space : trim (lit "  12 Main Rd ") = lit "12 Main Rd".
Proof. reflexivity. Qed.

Example trim_blank : trim (9 :: 32 :: 160 :: 12288 :: [])%N = [].
Proof. reflexivity. Qed.

Lemma handleSubmit_rejects (now : Z) (newId : jsstring) (f : Form)
    (st : State) (w : World) :
  authUser f = None \/ checks splitNumbers timestampFromDate f = true ->
  (handleSubmit splitNumbers timestampFromDate now newId f (st, w)).2 = w
  /\ exists msg,
       submitError
         (handleSubmit splitNumbers timestampFromDate now newId f (st, w)).1
       = Some msg.
Proof.
  unfold CustomerPage.checks, CustomerPage.handleSubmit. intros H.
  destruct (authUser f) as [u |]; [| split; [reflexivity | eexists; reflexivity]].
  destruct H as [H | H]; [discriminate H |].
  destruct (emptyStr (trim (customerName f)) || emptyStr (trim (customerPhone f))
            || emptyStr (trim (address f)));
    [split; [reflexivity | eexists; reflexivity] |].
  destruct (falsyNum (liters f) || (liters f <=? 0)%float);
    [split; [reflexivity | eexists; reflexivity] |].
  destruct (bool_decide (scheduleType f = later)
            && negb (truthy (scheduledTimestamp splitNumbers
                                                timestampFromDate f)));
    [split; [reflexivity | eexists; reflexivity] |].
  discriminate H.
Qed.

Lemma handleSubmit_accepts (now : Z) (newId : jsstring) (f : Form)
    (st : State) (w : World) (u : User) :
  authUser f = Some u -> checks splitNumbers timestampFromDate f = false ->
  handleSubmit splitNumbers timestampFromDate now newId f (st, w)
  = ({| isSubmitting := false; submitError := None; orderId := Some newId |},
     (addDoc now newId (orderPayload splitNumbers timestampFromDate u f) w).2).
Proof.
  unfold CustomerPage.checks, CustomerPage.handleSubmit. intros -> H.
  apply orb_false_iff in H. destruct H as [H H3].
  apply orb_false_iff in H. destruct H as [H1 H2].
  rewrite H1, H2, H3. reflexivity.
Qed.

Lemma checks_true (f : Form) :
  checks splitNumbers timestampFromDate f = true <->
  (trim (customerName f) = [] \/ trim (customerPhone f) = []
   \/ trim (address f) = [] \/ (0 <? liters f)%float = false
   \/ (scheduleType f = later
       /\ scheduledTimestamp splitNumbers timestampFromDate f = Null)).
Proof.
  unfold CustomerPage.checks. rewrite falsy_or_nonpositive.
  rewrite !orb_true_iff, andb_true_iff, !emptyStr_true.
  rewrite !negb_true_iff, bool_decide_eq_true.
  assert (Hs :
    truthy (scheduledTimestamp splitNumbers timestampFromDate f) = false
    <-> scheduledTimestamp splitNumbers timestampFromDate f = Null).
  { split.
    - intros Hf.
      destruct (truthy (scheduledTimestamp splitNumbers timestampFromDate f))
        eqn:E; [discriminate Hf |].
      unfold CustomerPage.scheduledTimestamp in *.
      destruct (scheduleType f); [reflexivity |].
      repeat match goal with
             | |- context [if ?c then _ else _] => destruct c
             end; first [reflexivity | discriminate E].
    - intros ->. reflexivity. }
  rewrite Hs. tauto.
Qed.

End Submission.

Section SubmissionSpec.

Import CustomerPage.

Variable splitNumbers : string -> jsstring -> list PrimFloat.float.
Variable timestampFromDate :
  PrimFloat.float -> PrimFloat.float -> PrimFloat.float ->
  PrimFloat.float -> PrimFloat.float -> Z.

(** C7, as the code has it. A submission whose name, phone or address is
    empty after trimming, whose liters are not positive, or that is
    scheduled for later without a target instant, is rejected with an
    inline error and nothing is written; so is any submission made before
    the customer's sign-in has completed, with a message of its own. Every
    other submission creates exactly one order document, PENDING and with
    [assignedDriverUid] and [assignedDriverName] both [null]. *)
Theorem submission_checked (now : Z) (newId : jsstring) (f : Form)
    (st : State) (w : World) :
  let r := handleSubmit splitNumbers timestampFromDate now newId f (st, w) in
  let invalid :=
    trim (customerName f) = [] \/ trim (customerPhone f) = []
    \/ trim (address f) = [] \/ (0 <? liters f)%float = false
    \/ (scheduleType f = later
        /\ scheduledTimestamp splitNumbers timestampFromDate f = Null) in
  (invalid -> r.2 = w /\ exists msg, submitError r.1 = Some msg)
  /\ (authUser f = None ->
        r.2 = w
        /\ submitError r.1
           = Some (lit "Signing you in. Please try again in a moment."))
  /\ (~ invalid ->
      forall u, authUser f = Some u -> orders w !! newId = None ->
        exists payload doc,
          issued r.2 = issued w ++ [AddDoc payload]
          /\ orders r.2 = <[newId := doc]> (orders w)
          /\ size (orders r.2) = S (size (orders w))
          /\ field doc "status" = statusValue PENDING
          /\ doc !! "assignedDriverUid" = Some Null
          /\ doc !! "assignedDriverName" = Some Null
          /\ submitError r.1 = None
          /\ orderId r.1 = Some newId).
Proof.
  cbv zeta. split; [| split].
  - intros Hinv. apply handleSubmit_rejects. right.
    apply checks_true. exact Hinv.
  - intros Hnone. unfold handleSubmit. rewrite Hnone. split; reflexivity.
  - intros Hvalid u Hu Hfresh.
    assert (Hc : checks splitNumbers timestampFromDate f = false).
    { destruct (checks splitNumbers timestampFromDate f) eqn:E; [| reflexivity].
      exfalso. apply Hvalid. apply checks_true. exact E. }
    rewrite (handleSubmit_accepts splitNumbers timestampFromDate
               now newId f st w u Hu Hc).
    cbn [fst snd addDoc orders issued submitError orderId].
    eexists _, _. split; [reflexivity |]. split; [reflexivity |].
    split; [apply map_size_insert_None; exact Hfresh |].
    split; [reflexivity |]. split; [reflexivity |].
    split; [reflexivity |]. split; reflexivity.
Qed.

End SubmissionSpec.

Lemma submission_checked_witness :
  let f := Sample.form (Some Sample.customer) in
  let r := CustomerPage.handleSubmit Sample.noNumbers Sample.epoch 5 (lit "o9")
             f (Sample.customerState, Sample.world CONFIRMED) in
  CustomerPage.authUser f = Some Sample.customer
  /\ orders (Sample.world CONFIRMED) !! lit "o9" = None
  /\ exists payload doc,
       issued r.2 = [AddDoc payload]
       /\ orders r.2 = <[lit "o9" := doc]> (orders (Sample.world CONFIRMED))
       /\ size (orders r.2) = 2
       /\ field doc "status" = statusValue PENDING
       /\ doc !! "assignedDriverUid" = Some Null
       /\ doc !! "assignedDriverName" = Some Null.
Proof.
  assert (Hvalid :
    ~ (trim (CustomerPage.customerName (Sample.form (Some Sample.customer))) = []
       \/ trim (CustomerPage.customerPhone (Sample.form (Some Sample.customer))) = []
       \/ trim (CustomerPage.address (Sample.form (Some Sample.customer))) = []
       \/ (0 <? CustomerPage.liters (Sample.form (Some Sample.customer)))%float = false
       \/ (CustomerPage.scheduleType (Sample.form (Some Sample.customer))
             = CustomerPage.later
           /\ CustomerPage.scheduledTimestamp Sample.noNumbers Sample.epoch
                (Sample.form (Some Sample.customer)) = Null))).
  { intros [E | [E | [E | [E | [E _]]]]]; vm_compute in E; discriminate E. }
  assert (Hfresh : orders (Sample.world CONFIRMED) !! lit "o9" = None)
    by (vm_compute; reflexivity).
  split; [reflexivity |]. split; [exact Hfresh |].
  destruct (proj2 (proj2 (submission_checked Sample.noNumbers Sample.epoch 5
                            (lit "o9") (Sample.form (Some Sample.customer))
                            Sample.customerState (Sample.world CONFIRMED)))
              Hvalid Sample.customer eq_refl Hfresh)
    as (payload & doc & Hi & Ho & Hsz & Hs & Hu & Hn & _).
  exists payload, doc. split; [exact Hi |]. split; [exact Ho |].
  split; [exact Hsz |]. split; [exact Hs |]. split; [exact Hu | exact Hn].
Defined.

(** A complete, valid form submitted before the anonymous sign-in has
    completed: no check of name, phone, address, liters or schedule fails,
    yet no document is created. *)
Lemma submission_before_sign_in :
  let f := Sample.form None in
  let r := CustomerPage.handleSubmit Sample.noNumbers Sample.epoch 5 (lit "o9")
             f (Sample.customerState, Lifecycle.initial) in
  trim (CustomerPage.customerName f) <> []
  /\ trim (CustomerPage.customerPhone f) <> []
  /\ trim (CustomerPage.address f) <> []
  /\ (0 <? CustomerPage.liters f)%float = true
  /\ CustomerPage.scheduleType f = CustomerPage.asap
  /\ CustomerPage.checks Sample.noNumbers Sample.epoch f = false
  /\ r.2 = Lifecycle.initial
  /\ orders r.2 !! lit "o9" = None
  /\ issued r.2 = []
  /\ CustomerPage.submitError r.1
     = Some (lit "Signing you in. Please try again in a moment.").
Proof.
  cbv zeta.
  split; [intros E; vm_compute in E; discriminate E |].
  split; [intros E; vm_compute in E; discriminate E |].
  split; [intros E; vm_compute in E; discriminate E |].
  repeat split; vm_compute; reflexivity.
Qed.


Lemma assignment_pair_invariant_witness :
  let w := (CustomerPage.handleSubmit Sample.noNumbers Sample.epoch 5 (lit "o9")
              (Sample.form (Some Sample.customer))
              (Sample.customerState, Lifecycle.initial)).2 in
  rtc (Lifecycle.step Sample.noNumbers Sample.epoch) Lifecycle.initial w
  /\ Lifecycle.allPaired w.
Proof.
  assert (H : rtc (Lifecycle.step Sample.noNumbers Sample.epoch)
                Lifecycle.initial
                (CustomerPage.handleSubmit Sample.noNumbers Sample.epoch 5
                   (lit "o9") (Sample.form (Some Sample.customer))
                   (Sample.customerState, Lifecycle.initial)).2).
  { apply rtc_once. apply Lifecycle.step_submit. vm_compute. reflexivity. }
  split; [exact H |].
  exact (proj2 (assignment_pair_invariant Sample.noNumbers Sample.epoch) _ H).
Defined.

(** * Further properties of the code *)

(** ** Formatting helpers *)

Section Formatting.

Import Types.

Lemma filter_idem {A : Type} (p : A -> bool) (l : list A) :
  List.filter p (List.filter p l) = List.filter p l.
Proof.
  induction l as [| x l IH]; [reflexivity |]. simpl.
  destruct (p x) eqn:E; simpl; rewrite ?E, IH; reflexivity.
Qed.

Lemma filter_all {A : Type} (p : A -> bool) (l : list A) :
  List.Forall (fun x => p x = true) (List.filter p l).
Proof.
  induction l as [| x l IH]; simpl; [constructor |].
  destruct (p x) eqn:E; [constructor; assumption | assumption].
Qed.

Lemma digitsOnly_filter (s : jsstring) :
  digitsOnly (Some s) = List.filter isDigit s.
Proof. unfold digitsOnly. destruct s; reflexivity. Qed.

(** [digitsOnly] returns decimal digits only, leaves a string of digits
    as it is (so applying it twice changes nothing), works piecewise on a
    concatenation, and gives the empty string for a missing value. *)
Theorem digitsOnly_spec (a b : jsstring) :
  List.Forall (fun c => isDigit c = true) (digitsOnly (Some a))
  /\ digitsOnly (Some (digitsOnly (Some a))) = digitsOnly (Some a)
  /\ digitsOnly (Some (a ++ b)) = digitsOnly (Some a) ++ digitsOnly (Some b)
  /\ length (digitsOnly (Some a)) <= length a
  /\ digitsOnly None = []
  /\ digitsOnly (Some (lit "+27 (82) 555-0100")) = lit "27825550100".
Proof.
  rewrite !digitsOnly_filter. split; [apply filter_all |].
  split; [apply filter_idem |]. split; [apply List.filter_app |].
  split; [apply List.filter_length_le |]. split; reflexivity.
Qed.

Lemma label_map (s : jsstring) :
  s <> [] ->
  formatStatusLabel (Some s)
  = map (fun c => if (c =? 95)%N then 32%N else c) s.
Proof. destruct s; [contradiction | reflexivity]. Qed.

(** [formatStatusLabel] never returns an underscore nor the empty string,
    keeps the length of a non-empty status, changes nothing when applied
    again, and labels the five statuses PENDING, CONFIRMED,
    OUT FOR DELIVERY, DELIVERED and CANCELLED. *)
Theorem formatStatusLabel_spec (status : option jsstring) :
  List.Forall (fun c => c <> 95%N) (formatStatusLabel status)
  /\ formatStatusLabel status <> []
  /\ formatStatusLabel (Some (formatStatusLabel status))
     = formatStatusLabel status
  /\ (forall c s, length (formatStatusLabel (Some (c :: s))) = S (length s))
  /\ map (fun k => formatStatusLabel (Some (lit (statusName k))))
         Writes.allStatuses
     = [ lit "PENDING"; lit "CONFIRMED"; lit "OUT FOR DELIVERY";
         lit "DELIVERED"; lit "CANCELLED" ].
Proof.
  assert (Hmap : forall s : jsstring,
            List.Forall (fun c => c <> 95%N)
              (map (fun c => if (c =? 95)%N then 32%N else c) s)).
  { induction s as [| c s IH]; simpl; constructor; [| exact IH].
    destruct (c =? 95)%N eqn:E; [discriminate |].
    apply N.eqb_neq. exact E. }
  assert (Hfix : forall s : jsstring,
            List.Forall (fun c => c <> 95%N) s ->
            map (fun c => if (c =? 95)%N then 32%N else c) s = s).
  { induction 1 as [| c s Hc _ IH]; simpl; [reflexivity |].
    apply N.eqb_neq in Hc. rewrite Hc, IH. reflexivity. }
  assert (Hdash : formatStatusLabel (Some [8212%N]) = [8212%N]) by reflexivity.
  split; [| split; [| split; [| split]]].
  - destruct status as [[| c s] |]; simpl;
      try (constructor; [discriminate | constructor]).
    apply (Hmap (c :: s)).
  - destruct status as [[| c s] |]; simpl; discriminate.
  - destruct status as [[| c s] |]; try exact Hdash.
    rewrite (label_map (c :: s)) by discriminate.
    rewrite label_map by (simpl; discriminate).
    apply Hfix. apply Hmap.
  - intros c s. simpl. rewrite length_map. reflexivity.
  - reflexivity.
Qed.

End Formatting.

(** ** Goal progress *)

Section GoalProgress.

Import OwnerDashboard.

Lemma SFcompare_antisym (x y : SpecFloat.spec_float) :
  SpecFloat.SFcompare y x = option_map CompOpp (SpecFloat.SFcompare x y).
Proof.
  destruct x as [sx | sx | | sx mx ex], y as [sy | sy | | sy my ey];
    simpl; try reflexivity;
    try (destruct sx; reflexivity); try (destruct sy; reflexivity);
    try (destruct sx, sy; reflexivity).
  pose proof (Pos.compare_cont_antisym mx my Eq) as H. simpl in H.
  destruct sx, sy; simpl; try reflexivity;
    rewrite (Z.compare_antisym ex ey), <- H;
    destruct (ex ?= ey)%Z; simpl; try reflexivity;
    destruct (Pos.compare_cont Eq mx my); reflexivity.
Qed.

Lemma ltb_asym (x y : PrimFloat.float) :
  (x <? y)%float = true -> (y <? x)%float = false.
Proof.
  rewrite !FloatAxioms.ltb_spec. unfold SpecFloat.SFltb.
  rewrite (SFcompare_antisym (FloatOps.Prim2SF x) (FloatOps.Prim2SF y)).
  destruct (SpecFloat.SFcompare (FloatOps.Prim2SF x) (FloatOps.Prim2SF y))
    as [[]|]; simpl; congruence.
Qed.

Lemma SFeqb_self (x : SpecFloat.spec_float) :
  SpecFloat.SFeqb x x
  = match x with SpecFloat.S754_nan => false | _ => true end.
Proof.
  unfold SpecFloat.SFeqb. destruct x as [s | s | | s m e]; simpl;
    try reflexivity.
  - destruct s; reflexivity.
  - destruct s; rewrite Z.compare_refl, Pos.compare_cont_refl; reflexivity.
Qed.

Lemma is_nan_spec (x : PrimFloat.float) :
  PrimFloat.is_nan x
  = match FloatOps.Prim2SF x with SpecFloat.S754_nan => true | _ => false end.
Proof.
  unfold PrimFloat.is_nan. rewrite FloatAxioms.eqb_spec, SFeqb_self.
  destruct (FloatOps.Prim2SF x); reflexivity.
Qed.

Lemma ltb_not_nan (x y : PrimFloat.float) :
  (x <? y)%float = true ->
  PrimFloat.is_nan x = false /\ PrimFloat.is_nan y = false.
Proof.
  rewrite !is_nan_spec, FloatAxioms.ltb_spec. unfold SpecFloat.SFltb.
  destruct (FloatOps.Prim2SF x), (FloatOps.Prim2SF y); simpl;
    first [discriminate | split; reflexivity].
Qed.

Lemma mathMin_le_one (a : PrimFloat.float) :
  (1 <? mathMin a 1)%float = false.
Proof.
  unfold mathMin.
  destruct (PrimFloat.is_nan a || PrimFloat.is_nan 1); [reflexivity |].
  destruct (a <? 1)%float eqn:E1; [apply ltb_asym; exact E1 |].
  destruct (1 <? a)%float eqn:E2; [reflexivity |].
  destruct (PrimFloat.get_sign a); [exact E2 | reflexivity].
Qed.

Lemma mathMin_below (a : PrimFloat.float) :
  (a <? 1)%float = true -> mathMin a 1 = a.
Proof.
  intros H. unfold mathMin. destruct (ltb_not_nan a 1 H) as [Ha _].
  rewrite Ha, H. reflexivity.
Qed.

Lemma get_sign_above (a : PrimFloat.float) :
  (1 <=? a)%float = true -> PrimFloat.get_sign a = false.
Proof.
  unfold PrimFloat.get_sign, PrimFloat.is_zero.
  rewrite FloatAxioms.leb_spec, FloatAxioms.eqb_spec.
  intros H.
  assert (Hz : SpecFloat.SFeqb (FloatOps.Prim2SF a)
                 (FloatOps.Prim2SF PrimFloat.zero) = false
               /\ SpecFloat.SFltb (FloatOps.Prim2SF a)
                    (FloatOps.Prim2SF PrimFloat.zero) = false).
  { change (FloatOps.Prim2SF PrimFloat.zero) with (SpecFloat.S754_zero false).
    revert H.
    change (FloatOps.Prim2SF 1%float)
      with (SpecFloat.S754_finite false 4503599627370496 (-52)).
    unfold SpecFloat.SFleb, SpecFloat.SFeqb, SpecFloat.SFltb.
    destruct (FloatOps.Prim2SF a) as [s | s | | s m e]; simpl;
      try discriminate; destruct s; simpl; try discriminate;
      intros _; split; reflexivity. }
  destruct Hz as [Hz1 Hz2]. rewrite Hz1. rewrite FloatAxioms.ltb_spec.
  exact Hz2.
Qed.

Lemma mathMin_above (a : PrimFloat.float) :
  (1 <=? a)%float = true -> mathMin a 1 = 1%float.
Proof.
  intros H. unfold mathMin.
  assert (Ha : PrimFloat.is_nan a = false).
  { rewrite is_nan_spec. rewrite FloatAxioms.leb_spec in H.
    unfold SpecFloat.SFleb in H.
    destruct (FloatOps.Prim2SF 1%float), (FloatOps.Prim2SF a); simpl in *;
      first [discriminate | reflexivity]. }
  rewrite Ha. change (PrimFloat.is_nan 1) with false. simpl.
  assert (Hlt : (a <? 1)%float = false).
  { rewrite FloatAxioms.ltb_spec. rewrite FloatAxioms.leb_spec in H.
    unfold SpecFloat.SFltb. unfold SpecFloat.SFleb in H.
    rewrite (SFcompare_antisym (FloatOps.Prim2SF 1%float) (FloatOps.Prim2SF a)).
    destruct (SpecFloat.SFcompare (FloatOps.Prim2SF 1%float)
                (FloatOps.Prim2SF a)) as [[]|]; simpl in *; congruence. }
  rewrite Hlt. destruct (1 <? a)%float; [reflexivity |].
  rewrite (get_sign_above a H). reflexivity.
Qed.

(** The goal progress never exceeds 1. It is 0 when the daily goal is not
    a positive number; with a positive goal it is the ratio of delivered
    orders to the goal while that is below 1, and exactly 1 once the ratio
    reaches 1. *)
Theorem progress_capped (m : OwnerPage.DashboardMetrics)
    (dailyGoal : PrimFloat.float) :
  let ratio := (OwnerPage.deliveredOrders m / dailyGoal)%float in
  (1 <? progress m dailyGoal)%float = false
  /\ ((0 <? dailyGoal)%float = false -> progress m dailyGoal = 0%float)
  /\ ((0 <? dailyGoal)%float = true -> (ratio <? 1)%float = true ->
      progress m dailyGoal = ratio)
  /\ ((0 <? dailyGoal)%float = true -> (1 <=? ratio)%float = true ->
      progress m dailyGoal = 1%float).
Proof.
  cbv zeta. unfold progress. rewrite positive_orZero.
  destruct (0 <? dailyGoal)%float eqn:G.
  - rewrite (orZero_positive dailyGoal G).
    split; [apply mathMin_le_one |]. split; [discriminate |].
    split; intros _ H; [apply mathMin_below | apply mathMin_above]; exact H.
  - split; [reflexivity |]. split; [reflexivity |]. split; discriminate.
Qed.

End GoalProgress.

Lemma progress_capped_witness :
  let m := OwnerPage.todayMetrics Sample.today in
  (0 <? 10)%float = true
  /\ (OwnerPage.deliveredOrders m / 10 <? 1)%float = true
  /\ OwnerDashboard.progress m 10 = (2 / 10)%float
  /\ (1 <=? OwnerPage.deliveredOrders m / 1)%float = true
  /\ OwnerDashboard.progress m 1 = 1%float.
Proof.
  assert (G10 : (0 <? 10)%float = true) by reflexivity.
  assert (G1 : (0 <? 1)%float = true) by reflexivity.
  assert (R10 : (OwnerPage.deliveredOrders (OwnerPage.todayMetrics Sample.today)
                 / 10 <? 1)%float = true) by (vm_compute; reflexivity).
  assert (R1 : (1 <=? OwnerPage.deliveredOrders
                        (OwnerPage.todayMetrics Sample.today) / 1)%float = true)
    by (vm_compute; reflexivity).
  destruct (progress_capped (OwnerPage.todayMetrics Sample.today) 10)
    as (_ & _ & Hlow & _).
  destruct (progress_capped (OwnerPage.todayMetrics Sample.today) 1)
    as (_ & _ & _ & Hhigh).
  split; [exact G10 |]. split; [exact R10 |].
  split; [rewrite (Hlow G10 R10); vm_compute; reflexivity |].
  split; [exact R1 | exact (Hhigh G1 R1)].
Defined.

(** ** Access to the protected screens *)

Section Access.

Import Authz.

(** [useRequireRole] leaves the loading state without denying access
    exactly when the signed-in principal's profile resolves to the
    required role, and then keeps that user and role; in every other
    settled state it has dropped the user and the role. An OWNER is
    therefore denied the driver area and a DRIVER the owner area. *)
Theorem access_only_for_required_role (users : Collection)
    (requiredRole : UserRole) (u : option User) :
  let st := useRequireRole users requiredRole u in
  ((loading st = false /\ accessDenied st = false)
   <-> exists usr, u = Some usr
         /\ getUserRole users (uid usr) = Some requiredRole)
  /\ (loading st = false -> accessDenied st = false ->
      user st = u /\ role st = Some requiredRole)
  /\ (accessDenied st = true -> user st = None /\ role st = None)
  /\ (forall usr r, u = Some usr -> getUserRole users (uid usr) = Some r ->
      r <> requiredRole -> accessDenied st = true).
Proof.
  cbv zeta. unfold useRequireRole.
  destruct u as [usr |].
  - destruct (getUserRole users (uid usr)) as [r |] eqn:Hr.
    + destruct (bool_decide (r = requiredRole)) eqn:Hb.
      * apply bool_decide_eq_true in Hb. subst r. simpl.
        split.
        { split; [intros _; exists usr; split; [reflexivity | exact Hr] |].
          intros _. split; reflexivity. }
        split; [intros _ _; split; reflexivity |].
        split; [discriminate |].
        intros usr' r' Hu Hr' Hne. injection Hu as <-. congruence.
      * apply bool_decide_eq_false in Hb. simpl.
        split.
        { split; [intros [_ H]; discriminate H |].
          intros (usr' & Hu & H). injection Hu as <-. congruence. }
        split; [intros _ H; discriminate H |].
        split; [intros _; split; reflexivity |].
        intros; reflexivity.
    + simpl.
      split.
      { split; [intros [_ H]; discriminate H |].
        intros (usr' & Hu & H). injection Hu as <-. congruence. }
      split; [intros _ H; discriminate H |].
      split; [intros _; split; reflexivity |].
      intros; reflexivity.
  - simpl.
    split.
    { split; [intros [H _]; discriminate H |].
      intros (usr' & H & _). discriminate H. }
    split; [intros H; discriminate H |].
    split; [discriminate |].
    intros usr r H. discriminate H.
Qed.

End Access.

Lemma access_only_for_required_role_witness :
  let owner := {| uid := lit "u1"; displayName := None |} in
  Authz.getUserRole Sample.users (uid owner) = Some Authz.OWNER
  /\ Authz.OWNER <> Authz.DRIVER
  /\ Authz.accessDenied
       (Authz.useRequireRole Sample.users Authz.DRIVER (Some owner)) = true.
Proof.
  assert (H1 : Authz.getUserRole Sample.users
                 (uid {| uid := lit "u1"; displayName := None |})
               = Some Authz.OWNER) by (vm_compute; reflexivity).
  assert (H2 : Authz.OWNER <> Authz.DRIVER) by discriminate.
  split; [exact H1 |]. split; [exact H2 |].
  destruct (access_only_for_required_role Sample.users Authz.DRIVER
              (Some {| uid := lit "u1"; displayName := None |}))
    as (_ & _ & _ & H).
  exact (H _ _ eq_refl H1 H2).
Defined.

Section DriverLogin.

Import Authz DriverLoginPage.



End DriverLogin.


(** ** Business settings *)

Section Settings.

Import OwnerSettings.

Variable toNumber : jsstring -> PrimFloat.float.
Variable toStr : value -> jsstring.

Lemma orZero_not_nan (x : PrimFloat.float) :
  PrimFloat.is_nan (orZero x) = false.
Proof.
  unfold orZero. destruct (falsyNum x) eqn:E; [reflexivity |].
  unfold falsyNum in E. apply orb_false_iff in E. apply E.
Qed.

Lemma orZero_idem (x : PrimFloat.float) : orZero (orZero x) = orZero x.
Proof.
  unfold orZero. destruct (falsyNum x) eqn:E.
  - destruct (falsyNum 0); reflexivity.
  - rewrite E. reflexivity.
Qed.

Lemma merged_setting (now : Z) (data : Doc) (stored : option Doc)
    (k : string) (v : value) :
  data !! k = Some v ->
  exists doc, setDocMerge now data stored = Some doc
              /\ field doc k = resolve now v.
Proof.
  intros H. unfold setDocMerge. eexists. split; [reflexivity |].
  destruct stored as [old |].
  - rewrite merged_field, H. reflexivity.
  - unfold field. rewrite lookup_fmap, H. reflexivity.
Qed.

Lemma settingsPayload_dom (st : State) (parsed : PrimFloat.float) :
  dom (settingsPayload toNumber st parsed) = settingsFields.
Proof.
  unfold settingsPayload. rewrite dom_list_to_map_L. simpl.
  unfold settingsFields. set_solver.
Qed.

Lemma save_rejected (now : Z) (st : State) (stored : option Doc) :
  (0 <? toNumber (tankCapacityInput st))%float = false ->
  handleSaveSettings toNumber now (st, stored)
  = ({| tankCapacityInput := tankCapacityInput st;
        pricePer1000Input := pricePer1000Input st;
        deliveryFeeInput := deliveryFeeInput st;
        dailyGoalInput := dailyGoalInput st;
        businessNameInput := businessNameInput st;
        businessPhoneInput := businessPhoneInput st;
        businessEmailInput := businessEmailInput st;
        businessAddressInput := businessAddressInput st;
        businessWhatsappInput := businessWhatsappInput st;
        businessHoursInput := businessHoursInput st;
        businessNoteInput := businessNoteInput st;
        pricePer1000Value := pricePer1000Value st;
        deliveryFeeValue := deliveryFeeValue st;
        dailyGoalValue := dailyGoalValue st;
        settingsExists := settingsExists st;
        settingsLoading := settingsLoading st;
        settingsError := Some (lit "Please enter a valid tank capacity.");
        settingsMessage := None |}, stored).
Proof.
  intros H. unfold handleSaveSettings. cbn [fst snd].
  rewrite falsy_or_nonpositive, H. reflexivity.
Qed.

Lemma save_accepted (now : Z) (st : State) (stored : option Doc) :
  (0 <? toNumber (tankCapacityInput st))%float = true ->
  (handleSaveSettings toNumber now (st, stored)).2
  = setDocMerge now
      (settingsPayload toNumber st (toNumber (tankCapacityInput st))) stored
  /\ pricePer1000Value (handleSaveSettings toNumber now (st, stored)).1
     = orZero (toNumber (pricePer1000Input st))
  /\ deliveryFeeValue (handleSaveSettings toNumber now (st, stored)).1
     = orZero (toNumber (deliveryFeeInput st))
  /\ dailyGoalValue (handleSaveSettings toNumber now (st, stored)).1
     = orZero (toNumber (dailyGoalInput st))
  /\ settingsMessage (handleSaveSettings toNumber now (st, stored)).1
     = Some (lit "Settings saved.")
  /\ settingsError (handleSaveSettings toNumber now (st, stored)).1 = None.
Proof.
  intros H. unfold handleSaveSettings. cbn [fst snd].
  rewrite falsy_or_nonpositive, H. cbn [negb]. repeat split; reflexivity.
Qed.

(** Saving the settings with a tank capacity that is not a positive number
    writes nothing and reports an error. Otherwise the stored document
    gets that capacity, a price, a fee and a daily goal that are numbers
    and never NaN (an input that is not a number is stored as 0), and the
    server time; every field of the stored document that the form does not
    carry is kept. *)
Theorem save_settings_checked (now : Z) (st : State) (stored : option Doc) :
  let parsed := toNumber (tankCapacityInput st) in
  let r := handleSaveSettings toNumber now (st, stored) in
  ((0 <? parsed)%float = false ->
     r.2 = stored
     /\ settingsError r.1 = Some (lit "Please enter a valid tank capacity.")
     /\ settingsMessage r.1 = None)
  /\ ((0 <? parsed)%float = true ->
      exists doc p f g,
        r.2 = Some doc
        /\ field doc "tankCapacityLiters" = Num parsed
        /\ field doc "pricePer1000L" = Num p /\ PrimFloat.is_nan p = false
        /\ field doc "deliveryFee" = Num f /\ PrimFloat.is_nan f = false
        /\ field doc "dailyDeliveryGoalOrders" = Num g
        /\ PrimFloat.is_nan g = false
        /\ field doc "updatedAt" = Time now
        /\ (forall old k, stored = Some old -> k ∉ settingsFields ->
                          doc !! k = old !! k)
        /\ settingsMessage r.1 = Some (lit "Settings saved.")).
Proof.
  cbv zeta. split.
  - intros H. rewrite (save_rejected now st stored H). repeat split.
  - intros H. destruct (save_accepted now st stored H) as (Hw & _ & _ & _ & Hm & _).
    rewrite Hw, Hm.
    set (payload := settingsPayload toNumber st (toNumber (tankCapacityInput st))).
    exists (match stored with
            | Some old => (resolve now <$> payload) ∪ old
            | None => resolve now <$> payload
            end),
      (orZero (toNumber (pricePer1000Input st))),
      (orZero (toNumber (deliveryFeeInput st))),
      (orZero (toNumber (dailyGoalInput st))).
    assert (Hf : forall k v, payload !! k = Some v ->
              field (match stored with
                     | Some old => (resolve now <$> payload) ∪ old
                     | None => resolve now <$> payload
                     end) k = resolve now v).
    { intros k v Hk.
      destruct (merged_setting now payload stored k v Hk) as (doc & Hd & Hv).
      unfold setDocMerge in Hd. injection Hd as <-. exact Hv. }
    split; [reflexivity |].
    split; [apply (Hf _ (Num _)); reflexivity |].
    split; [apply (Hf _ (Num _)); reflexivity |].
    split; [apply orZero_not_nan |].
    split; [apply (Hf _ (Num _)); reflexivity |].
    split; [apply orZero_not_nan |].
    split; [apply (Hf _ (Num _)); reflexivity |].
    split; [apply orZero_not_nan |].
    split; [apply (Hf _ ServerTimestamp); reflexivity |].
    split; [| reflexivity].
    intros old k -> Hk. rewrite merged_lookup.
    assert (Hnone : payload !! k = None).
    { apply not_elem_of_dom. unfold payload. rewrite settingsPayload_dom.
      exact Hk. }
    rewrite Hnone. reflexivity.
Qed.

(** After a successful save, the next settings snapshot puts into the page
    state exactly what was saved: the three numbers the dashboard uses,
    the trimmed business name, and the flag that settings exist. The
    revenue the dashboard then shows is the one for the typed price and
    fee. *)
Theorem settings_round_trip (now : Z) (st : State) (stored : option Doc) :
  (0 <? toNumber (tankCapacityInput st))%float = true ->
  let r := handleSaveSettings toNumber now (st, stored) in
  let st' := onSettingsSnapshot toStr r.2 r.1 in
  pricePer1000Value st' = orZero (toNumber (pricePer1000Input st))
  /\ deliveryFeeValue st' = orZero (toNumber (deliveryFeeInput st))
  /\ dailyGoalValue st' = orZero (toNumber (dailyGoalInput st))
  /\ businessNameInput st' = trim (businessNameInput st)
  /\ tankCapacityInput st' = toStr (Num (toNumber (tankCapacityInput st)))
  /\ settingsExists st' = true
  /\ settingsLoading st' = false
  /\ forall m,
       OwnerPage.deliveredRevenueToday m
         (pricePer1000Value st') (deliveryFeeValue st')
       = OwnerPage.deliveredRevenueToday m
           (toNumber (pricePer1000Input st)) (toNumber (deliveryFeeInput st)).
Proof.
  intros H. cbv zeta.
  destruct (save_accepted now st stored H) as (Hw & _).
  rewrite Hw.
  set (payload := settingsPayload toNumber st (toNumber (tankCapacityInput st))).
  unfold setDocMerge.
  set (doc := match stored with
              | Some old => (resolve now <$> payload) ∪ old
              | None => resolve now <$> payload
              end).
  assert (Hf : forall k v, payload !! k = Some v -> field doc k = resolve now v).
  { intros k v Hk.
    destruct (merged_setting now payload stored k v Hk) as (doc' & Hd & Hv).
    unfold setDocMerge in Hd. injection Hd as <-. exact Hv. }
  assert (Hp : field doc "pricePer1000L"
               = Num (orZero (toNumber (pricePer1000Input st))))
    by (apply (Hf _ (Num _)); reflexivity).
  assert (Hfee : field doc "deliveryFee"
                 = Num (orZero (toNumber (deliveryFeeInput st))))
    by (apply (Hf _ (Num _)); reflexivity).
  assert (Hg : field doc "dailyDeliveryGoalOrders"
               = Num (orZero (toNumber (dailyGoalInput st))))
    by (apply (Hf _ (Num _)); reflexivity).
  assert (Hn : field doc "businessName" = Str (trim (businessNameInput st)))
    by (apply (Hf _ (Str _)); reflexivity).
  assert (Ht : field doc "tankCapacityLiters"
               = Num (toNumber (tankCapacityInput st)))
    by (apply (Hf _ (Num _)); reflexivity).
  unfold onSettingsSnapshot. cbn [pricePer1000Value deliveryFeeValue
    dailyGoalValue businessNameInput tankCapacityInput settingsExists
    settingsLoading].
  rewrite Hp, Hfee, Hg, Hn, Ht. cbn [asNumber asString default truthy].
  rewrite (positive_not_falsy _ H). cbn [negb].
  repeat split; try reflexivity.
  intros m. unfold OwnerPage.deliveredRevenueToday. cbv zeta.
  unfold id. rewrite !orZero_idem. reflexivity.
Qed.

End Settings.

Lemma save_settings_checked_witness :
  let r := OwnerSettings.handleSaveSettings SampleMore.sampleNumber 9
             (SampleMore.settingsState, None) in
  (0 <? SampleMore.sampleNumber
          (OwnerSettings.tankCapacityInput SampleMore.settingsState))%float
  = true
  /\ exists doc, r.2 = Some doc
       /\ field doc "tankCapacityLiters" = Num 5000
       /\ field doc "updatedAt" = Time 9.
Proof.
  assert (H : (0 <? SampleMore.sampleNumber
                      (OwnerSettings.tankCapacityInput SampleMore.settingsState))%float
              = true) by (vm_compute; reflexivity).
  split; [exact H |].
  destruct (proj2 (save_settings_checked SampleMore.sampleNumber 9
                     SampleMore.settingsState None) H)
    as (doc & p & f & g & Hd & Ht & _ & _ & _ & _ & _ & _ & Hu & _).
  exists doc. split; [exact Hd |]. split; [exact Ht | exact Hu].
Defined.

Lemma settings_round_trip_witness :
  let r := OwnerSettings.handleSaveSettings SampleMore.sampleNumber 9
             (SampleMore.settingsState, None) in
  let st' := OwnerSettings.onSettingsSnapshot SampleMore.sampleString r.2 r.1 in
  (0 <? SampleMore.sampleNumber
          (OwnerSettings.tankCapacityInput SampleMore.settingsState))%float
  = true
  /\ OwnerSettings.pricePer1000Value st' = 250%float
  /\ OwnerSettings.deliveryFeeValue st' = 0%float
  /\ OwnerSettings.businessNameInput st' = lit "Aqua"
  /\ OwnerSettings.settingsExists st' = true.
Proof.
  assert (H : (0 <? SampleMore.sampleNumber
                      (OwnerSettings.tankCapacityInput SampleMore.settingsState))%float
              = true) by (vm_compute; reflexivity).
  split; [exact H |].
  destruct (settings_round_trip SampleMore.sampleNumber SampleMore.sampleString
              9 SampleMore.settingsState None H)
    as (Hp & Hf & _ & Hn & _ & He & _).
  split; [rewrite Hp; vm_compute; reflexivity |].
  split; [rewrite Hf; vm_compute; reflexivity |].
  split; [rewrite Hn; vm_compute; reflexivity | exact He].
Defined.

(** ** What the handlers keep true of the stored orders *)

Section StoredOrders.

Import Lifecycle Writes.

Variable splitNumbers : string -> jsstring -> list PrimFloat.float.
Variable timestampFromDate :
  PrimFloat.float -> PrimFloat.float -> PrimFloat.float ->
  PrimFloat.float -> PrimFloat.float -> Z.

Lemma updatePayload_lookup (p : Doc) :
  updatePayload p ->
  (forall k, k <> "status" -> k <> "updatedAt" ->
             k <> "assignedDriverUid" -> k <> "assignedDriverName" ->
             p !! k = None)
  /\ (p !! "status" = None \/ exists s, p !! "status" = Some (statusValue s))
  /\ (p !! "assignedDriverUid" = None
      \/ exists s, s <> [] /\ p !! "assignedDriverUid" = Some (Str s)).
Proof.
  intros [s | sel driver Hsel | s | u order Hu].
  - destruct (statusPayload_lookup s) as (Hs & _ & Hrest).
    split; [intros k H1 H2 _ _; apply Hrest; assumption |].
    split; [right; exists s; exact Hs | left; apply Hrest; discriminate].
  - destruct (assignPayload_lookup sel driver) as (Hu & _ & _ & Hrest).
    split; [intros k _ H2 H3 H4; apply Hrest; assumption |].
    split; [left; apply Hrest; discriminate | right; exists sel; split; assumption].
  - destruct (basePayload_lookup s) as (Hs & _ & Hrest).
    split; [intros k H1 H2 _ _; apply Hrest; assumption |].
    split; [right; exists s; exact Hs | left; apply Hrest; discriminate].
  - destruct (basePayload_lookup OUT_FOR_DELIVERY) as (Hs & _ & Hrest).
    destruct (selfAssign_lookup (Some u) order
                (DriverPage.basePayload OUT_FOR_DELIVERY))
      as (Huid & _ & Hother).
    split; [intros k H1 H2 H3 H4; rewrite Hother by assumption;
            apply Hrest; assumption |].
    split; [right; exists OUT_FOR_DELIVERY; rewrite Hother by discriminate;
            exact Hs |].
    right. exists (uid u). split; [exact Hu | exact Huid].
Qed.

(** What one handler run does to the collection. *)
Lemma step_cases (w w' : World) :
  step splitNumbers timestampFromDate w w' ->
  orders w' = orders w
  \/ (exists now newId u f,
        orders w !! newId = None
        /\ CustomerPage.checks splitNumbers timestampFromDate f = false
        /\ orders w'
           = <[newId := resolve now <$>
                 CustomerPage.orderPayload splitNumbers timestampFromDate u f]>
               (orders w))
  \/ (exists now i p d,
        orders w !! i = Some d /\ updatePayload p
        /\ orders w' = <[i := (resolve now <$> p) ∪ d]> (orders w)).
Proof.
  assert (Hupd : forall now i p w0, updatePayload p ->
            orders (updateDoc now i p w0).2 = orders w0
            \/ exists d, orders w0 !! i = Some d
                 /\ orders (updateDoc now i p w0).2
                    = <[i := (resolve now <$> p) ∪ d]> (orders w0)).
  { intros now i p w0 Hp. unfold updateDoc.
    destruct (orders w0 !! i) as [d |] eqn:Hd; [| left; reflexivity].
    right. exists d. split; reflexivity. }
  intros [now newId f st w0 Hfresh | now b order st w0
          | now user order status st w0].
  - destruct (CustomerPage.authUser f) as [u |] eqn:Hu.
    + destruct (CustomerPage.checks splitNumbers timestampFromDate f) eqn:Hc.
      * left.
        destruct (handleSubmit_rejects splitNumbers timestampFromDate
                    now newId f st w0 (or_intror Hc)) as [-> _]. reflexivity.
      * right. left. exists now, newId, u, f.
        rewrite (handleSubmit_accepts splitNumbers timestampFromDate
                   now newId f st w0 u Hu Hc).
        split; [exact Hfresh |]. split; [exact Hc | reflexivity].
    + left.
      destruct (handleSubmit_rejects splitNumbers timestampFromDate
                  now newId f st w0 (or_introl Hu)) as [-> _]. reflexivity.
  - assert (Hstatus : forall s,
              orders (OwnerPage.updateStatus now (Order.id order) s (st, w0)).2
              = orders w0
              \/ exists now' i p d, orders w0 !! i = Some d /\ updatePayload p
                   /\ orders (OwnerPage.updateStatus now (Order.id order) s
                                (st, w0)).2
                      = <[i := (resolve now' <$> p) ∪ d]> (orders w0)).
    { intros s. unfold OwnerPage.updateStatus. cbn [snd].
      destruct (Hupd now (Order.id order) (OwnerPage.statusPayload s) w0
                  (owner_status s)) as [H | (d & Hd & H)]; [left; exact H |].
      right. exists now, (Order.id order), (OwnerPage.statusPayload s), d.
      split; [exact Hd |]. split; [constructor | exact H]. }
    destruct b; cbn [OwnerPage.press];
      try (destruct (Hstatus CONFIRMED) as [H | H]; [left | right; right];
           exact H);
      try (destruct (Hstatus CANCELLED) as [H | H]; [left | right; right];
           exact H);
      try (destruct (Hstatus PENDING) as [H | H]; [left | right; right];
           exact H).
    unfold OwnerPage.handleAssignDriver. cbn [fst snd].
    destruct (OwnerPage.driverSelections st !! Order.id order) as [sel |];
      [| left; reflexivity].
    destruct sel as [| c sel]; [left; reflexivity |]. cbn [emptyStr snd].
    destruct (Hupd now (Order.id order)
                (OwnerPage.assignPayload (c :: sel)
                   (OwnerPage.selectedDriver st (c :: sel))) w0)
      as [H | (d & Hd & H)]; [constructor; discriminate | left; exact H |].
    right. right. eexists now, (Order.id order), _, d.
    split; [exact Hd |]. split; [| exact H]. constructor. discriminate.
  - unfold DriverPage.updateStatus.
    destruct (bool_decide (status = OUT_FOR_DELIVERY)
              && negb (eqStr (Order.status order) "CONFIRMED"));
      [left; reflexivity |].
    destruct (bool_decide (status = DELIVERED)
              && negb (eqStr (Order.status order) "OUT_FOR_DELIVERY"));
      [left; reflexivity |].
    cbn [snd].
    destruct (bool_decide (status = OUT_FOR_DELIVERY)
              && negb (truthy (Order.assignedDriverUid order))
              && truthy (DriverPage.driverUid user)) eqn:Hclaim.
    + apply andb_true_iff in Hclaim. destruct Hclaim as [Hc Ht].
      apply andb_true_iff in Hc. destruct Hc as [Hs _].
      apply bool_decide_eq_true in Hs. subst status.
      destruct user as [u |]; [| discriminate Ht].
      assert (Hu : uid u <> []).
      { intros E. simpl in Ht. rewrite E in Ht. discriminate Ht. }
      destruct (Hupd now (Order.id order)
                  (DriverPage.selfAssign (Some u) order
                     (DriverPage.basePayload OUT_FOR_DELIVERY)) w0
                  (driver_claim u order Hu)) as [H | (d & Hd & H)];
        [left; exact H |].
      right. right. eexists now, (Order.id order), _, d.
      split; [exact Hd |]. split; [exact (driver_claim u order Hu) | exact H].
    + destruct (Hupd now (Order.id order) (DriverPage.basePayload status) w0
                  (driver_status status)) as [H | (d & Hd & H)];
        [left; exact H |].
      right. right. eexists now, (Order.id order), _, d.
      split; [exact Hd |]. split; [exact (driver_status status) | exact H].
Qed.

(** A property of documents that new orders have and updates keep holds
    of every order of every reachable store. *)
Lemma reachable_docs (P : Doc -> Prop) :
  (forall now u f,
     CustomerPage.checks splitNumbers timestampFromDate f = false ->
     P (resolve now <$>
          CustomerPage.orderPayload splitNumbers timestampFromDate u f)) ->
  (forall now p d, updatePayload p -> P d -> P ((resolve now <$> p) ∪ d)) ->
  forall w, rtc (step splitNumbers timestampFromDate) initial w ->
  forall i d, orders w !! i = Some d -> P d.
Proof.
  intros Hnew Hupd.
  apply (rtc_ind_r (fun w => forall i d, orders w !! i = Some d -> P d)
           initial).
  - intros i d Hd. cbn in Hd. rewrite lookup_empty in Hd. discriminate Hd.
  - intros w1 w2 _ Hstep IH i d Hd.
    destruct (step_cases w1 w2 Hstep)
      as [E | [(now & newId & u & f & _ & Hc & E)
              | (now & j & p & dj & Hj & Hp & E)]];
      rewrite E in Hd.
    + exact (IH i d Hd).
    + rewrite lookup_insert in Hd. case_decide.
      * injection Hd as <-. apply Hnew. exact Hc.
      * exact (IH i d Hd).
    + rewrite lookup_insert in Hd. case_decide.
      * injection Hd as <-. apply Hupd; [exact Hp |]. exact (IH j dj Hj).
      * exact (IH i d Hd).
Qed.

End StoredOrders.

(** ** Trimming *)

Section Trimming.

Lemma trimStart_length (l : jsstring) : length (trimStart l) <= length l.
Proof.
  induction l as [| c l IH]; simpl; [lia |].
  destruct (isWhiteSpace c); simpl; lia.
Qed.

Lemma trimStart_fixed_head (c : N) (l : jsstring) :
  trimStart (c :: l) = c :: l -> isWhiteSpace c = false.
Proof.
  simpl. destruct (isWhiteSpace c); [| reflexivity].
  intros H. pose proof (trimStart_length l) as Hl. rewrite H in Hl.
  simpl in Hl. lia.
Qed.

Lemma trimStart_idem (l : jsstring) : trimStart (trimStart l) = trimStart l.
Proof.
  induction l as [| c l IH]; simpl; [reflexivity |].
  destruct (isWhiteSpace c) eqn:E; [exact IH |]. simpl. rewrite E. reflexivity.
Qed.

Lemma trimStart_suffix (l : jsstring) : exists pre, l = pre ++ trimStart l.
Proof.
  induction l as [| c l [pre IH]]; simpl; [exists []; reflexivity |].
  destruct (isWhiteSpace c).
  - exists (c :: pre). simpl. rewrite <- IH. reflexivity.
  - exists []. reflexivity.
Qed.

Lemma trimStart_fixed_prefix (x y : jsstring) :
  trimStart (x ++ y) = x ++ y -> trimStart x = x.
Proof.
  destruct x as [| c x]; [reflexivity |]. intros H.
  apply trimStart_fixed_head in H. simpl. rewrite H. reflexivity.
Qed.

(** A trimmed string has no white space left at either end. *)
Lemma trim_idem (s : jsstring) : trim (trim s) = trim s.
Proof.
  unfold trim.
  set (a := trimStart s). set (b := trimStart (rev a)).
  assert (Ha : trimStart a = a) by apply trimStart_idem.
  assert (Hb : trimStart b = b) by apply trimStart_idem.
  destruct (trimStart_suffix (rev a)) as [pre Hpre]. fold b in Hpre.
  assert (Hrev : a = rev b ++ rev pre).
  { rewrite <- rev_app_distr, <- Hpre, rev_involutive. reflexivity. }
  assert (Hrb : trimStart (rev b) = rev b).
  { apply (trimStart_fixed_prefix (rev b) (rev pre)). rewrite <- Hrev.
    exact Ha. }
  rewrite Hrb, rev_involutive, Hb. reflexivity.
Qed.

End Trimming.

(** ** Invariants of the stored orders *)

Section StoredOrderInvariants.

Import Lifecycle Writes.

Variable splitNumbers : string -> jsstring -> list PrimFloat.float.
Variable timestampFromDate :
  PrimFloat.float -> PrimFloat.float -> PrimFloat.float ->
  PrimFloat.float -> PrimFloat.float -> Z.

Lemma untouched_field (now : Z) (p d : Doc) (k : string) :
  updatePayload p ->
  k <> "status" -> k <> "updatedAt" ->
  k <> "assignedDriverUid" -> k <> "assignedDriverName" ->
  ((resolve now <$> p) ∪ d) !! k = d !! k.
Proof.
  intros Hp H1 H2 H3 H4. destruct (updatePayload_lookup p Hp) as (Hrest & _).
  rewrite merged_lookup, Hrest by assumption. reflexivity.
Qed.

Lemma untouched_value (now : Z) (p d : Doc) (k : string) :
  updatePayload p ->
  k <> "status" -> k <> "updatedAt" ->
  k <> "assignedDriverUid" -> k <> "assignedDriverName" ->
  field ((resolve now <$> p) ∪ d) k = field d k.
Proof.
  intros Hp H1 H2 H3 H4. unfold field.
  rewrite (untouched_field now p d k Hp H1 H2 H3 H4). reflexivity.
Qed.

Lemma checks_false (f : CustomerPage.Form) :
  CustomerPage.checks splitNumbers timestampFromDate f = false ->
  trim (CustomerPage.customerName f) <> []
  /\ trim (CustomerPage.customerPhone f) <> []
  /\ trim (CustomerPage.address f) <> []
  /\ (0 <? CustomerPage.liters f)%float = true
  /\ (CustomerPage.scheduleType f = CustomerPage.later ->
      CustomerPage.scheduledTimestamp splitNumbers timestampFromDate f <> Null).
Proof.
  intros Hc.
  assert (Hn : ~ (trim (CustomerPage.customerName f) = []
                  \/ trim (CustomerPage.customerPhone f) = []
                  \/ trim (CustomerPage.address f) = []
                  \/ (0 <? CustomerPage.liters f)%float = false
                  \/ (CustomerPage.scheduleType f = CustomerPage.later
                      /\ CustomerPage.scheduledTimestamp splitNumbers
                           timestampFromDate f = Null))).
  { intros H. apply (checks_true splitNumbers timestampFromDate) in H.
    congruence. }
  repeat split.
  - intros E. apply Hn. tauto.
  - intros E. apply Hn. tauto.
  - intros E. apply Hn. tauto.
  - destruct (0 <? CustomerPage.liters f)%float; [reflexivity |].
    exfalso. apply Hn. tauto.
  - intros Hl E. apply Hn. tauto.
Qed.

Lemma scheduledTimestamp_shape (f : CustomerPage.Form) :
  CustomerPage.scheduledTimestamp splitNumbers timestampFromDate f = Null
  \/ exists t,
       CustomerPage.scheduledTimestamp splitNumbers timestampFromDate f = Time t.
Proof.
  unfold CustomerPage.scheduledTimestamp.
  destruct (CustomerPage.scheduleType f); [left; reflexivity |].
  repeat match goal with
         | |- context [if ?c then _ else _] => destruct c
         end; first [left; reflexivity | right; eexists; reflexivity].
Qed.


(** The status of every stored order is one of PENDING, CONFIRMED,
    OUT_FOR_DELIVERY, DELIVERED and CANCELLED, in every store the handlers
    can produce from the empty one. *)
Theorem status_always_valid (w : World) (i : jsstring) (d : Doc) :
  rtc (step splitNumbers timestampFromDate) initial w ->
  orders w !! i = Some d ->
  exists s, field d "status" = statusValue s.
Proof.
  intros Hrtc Hd.
  refine (reachable_docs splitNumbers timestampFromDate
           (fun d => exists s, field d "status" = statusValue s) _ _ w Hrtc i d Hd).
  - intros now u f _. exists PENDING. reflexivity.
  - intros now p d0 Hp [s Hs].
    destruct (updatePayload_lookup p Hp) as (_ & [Hn | [s' Hs']] & _);
      rewrite merged_field.
    + rewrite Hn. exists s. exact Hs.
    + rewrite Hs'. exists s'. destruct s'; reflexivity.
Qed.

(** Every stored order has a number of liters that is positive (so not
    NaN and not zero). *)
Theorem stored_liters_positive (w : World) (i : jsstring) (d : Doc) :
  rtc (step splitNumbers timestampFromDate) initial w ->
  orders w !! i = Some d ->
  exists l, field d "liters" = Num l /\ (0 <? l)%float = true.
Proof.
  intros Hrtc Hd.
  refine (reachable_docs splitNumbers timestampFromDate
           (fun d => exists l, field d "liters" = Num l
                               /\ (0 <? l)%float = true) _ _ w Hrtc i d Hd).
  - intros now u f Hc. exists (CustomerPage.liters f).
    split; [reflexivity | apply (checks_false f Hc)].
  - intros now p d0 Hp H.
    rewrite (untouched_value now p d0 "liters" Hp) by discriminate. exact H.
Qed.

(** Every stored order is either immediate with no target instant, or
    scheduled for later with a target instant. *)
Theorem stored_schedule_consistent (w : World) (i : jsstring) (d : Doc) :
  rtc (step splitNumbers timestampFromDate) initial w ->
  orders w !! i = Some d ->
  (field d "scheduleType" = Str (lit "asap")
   /\ field d "scheduledFor" = Null)
  \/ (field d "scheduleType" = Str (lit "later")
      /\ exists t, field d "scheduledFor" = Time t).
Proof.
  intros Hrtc Hd.
  refine (reachable_docs splitNumbers timestampFromDate
           (fun d => (field d "scheduleType" = Str (lit "asap")
                      /\ field d "scheduledFor" = Null)
                     \/ (field d "scheduleType" = Str (lit "later")
                         /\ exists t, field d "scheduledFor" = Time t)) _ _ w Hrtc i d Hd).
  - intros now u f Hc.
    destruct (checks_false f Hc) as (_ & _ & _ & _ & Hs).
    assert (Hty : field (resolve now <$>
                     CustomerPage.orderPayload splitNumbers timestampFromDate u f)
                    "scheduleType"
                  = Str (lit (CustomerPage.scheduleTypeName
                                (CustomerPage.scheduleType f))))
      by reflexivity.
    assert (Hfor : field (resolve now <$>
                      CustomerPage.orderPayload splitNumbers timestampFromDate u f)
                     "scheduledFor"
                   = resolve now (CustomerPage.scheduledTimestamp splitNumbers
                                    timestampFromDate f))
      by reflexivity.
    rewrite Hty, Hfor.
    destruct (CustomerPage.scheduleType f) eqn:E.
    + left. split; [reflexivity |].
      unfold CustomerPage.scheduledTimestamp. rewrite E. reflexivity.
    + right. split; [reflexivity |].
      destruct (scheduledTimestamp_shape f) as [Hnull | [t Ht]].
      * exfalso. exact (Hs eq_refl Hnull).
      * exists t. rewrite Ht. reflexivity.
  - intros now p d0 Hp H.
    rewrite (untouched_value now p d0 "scheduleType" Hp) by discriminate.
    rewrite (untouched_value now p d0 "scheduledFor" Hp) by discriminate.
    exact H.
Qed.

(** The customer name, phone and address of every stored order are
    strings that are not empty and carry no white space at either end. *)
Theorem stored_contact_trimmed (w : World) (i : jsstring) (d : Doc) :
  rtc (step splitNumbers timestampFromDate) initial w ->
  orders w !! i = Some d ->
  forall k, k = "customerName" \/ k = "customerPhone" \/ k = "address" ->
  exists s, field d k = Str s /\ s <> [] /\ trim s = s.
Proof.
  intros Hrtc Hd.
  refine (reachable_docs splitNumbers timestampFromDate
           (fun d => forall k,
              k = "customerName" \/ k = "customerPhone" \/ k = "address" ->
              exists s, field d k = Str s /\ s <> [] /\ trim s = s) _ _ w Hrtc i d Hd).
  - intros now u f Hc k Hk.
    destruct (checks_false f Hc) as (Hn & Hp & Ha & _).
    destruct Hk as [-> | [-> | ->]].
    + exists (trim (CustomerPage.customerName f)).
      split; [reflexivity |]. split; [exact Hn | apply trim_idem].
    + exists (trim (CustomerPage.customerPhone f)).
      split; [reflexivity |]. split; [exact Hp | apply trim_idem].
    + exists (trim (CustomerPage.address f)).
      split; [reflexivity |]. split; [exact Ha | apply trim_idem].
  - intros now p d0 Hp H k Hk.
    rewrite (untouched_value now p d0 k Hp);
      try (destruct Hk as [-> | [-> | ->]]; discriminate).
    exact (H k Hk).
Qed.

(** The assigned driver of every stored order is [null] or a non-empty
    string. *)
Theorem assignee_null_or_uid (w : World) (i : jsstring) (d : Doc) :
  rtc (step splitNumbers timestampFromDate) initial w ->
  orders w !! i = Some d ->
  field d "assignedDriverUid" = Null
  \/ exists s, s <> [] /\ field d "assignedDriverUid" = Str s.
Proof.
  intros Hrtc Hd.
  refine (reachable_docs splitNumbers timestampFromDate
           (fun d => field d "assignedDriverUid" = Null
                     \/ exists s, s <> []
                          /\ field d "assignedDriverUid" = Str s) _ _ w Hrtc i d Hd).
  - intros now u f _. left. reflexivity.
  - intros now p d0 Hp H.
    destruct (updatePayload_lookup p Hp) as (_ & _ & [Hn | (s & Hs & Hu)]);
      rewrite merged_field.
    + rewrite Hn. exact H.
    + rewrite Hu. right. exists s. split; [exact Hs | reflexivity].
Qed.

End StoredOrderInvariants.

Section StoredOrderWitnesses.

Lemma firstWorld_reachable :
  rtc (Lifecycle.step Sample.noNumbers Sample.epoch) Lifecycle.initial
      SampleMore.firstWorld.
Proof. apply rtc_once. apply Lifecycle.step_submit. vm_compute. reflexivity. Qed.

Lemma firstWorld_doc :
  orders SampleMore.firstWorld !! lit "o9" = Some SampleMore.firstDoc.
Proof. vm_compute. reflexivity. Qed.

End StoredOrderWitnesses.


Lemma status_always_valid_witness :
  exists s, field SampleMore.firstDoc "status" = statusValue s.
Proof.
  exact (status_always_valid Sample.noNumbers Sample.epoch
           SampleMore.firstWorld (lit "o9") SampleMore.firstDoc
           firstWorld_reachable firstWorld_doc).
Defined.

Lemma stored_liters_positive_witness :
  exists l, field SampleMore.firstDoc "liters" = Num l
            /\ (0 <? l)%float = true.
Proof.
  exact (stored_liters_positive Sample.noNumbers Sample.epoch
           SampleMore.firstWorld (lit "o9") SampleMore.firstDoc
           firstWorld_reachable firstWorld_doc).
Defined.

Lemma stored_schedule_consistent_witness :
  (field SampleMore.firstDoc "scheduleType" = Str (lit "asap")
   /\ field SampleMore.firstDoc "scheduledFor" = Null)
  \/ (field SampleMore.firstDoc "scheduleType" = Str (lit "later")
      /\ exists t, field SampleMore.firstDoc "scheduledFor" = Time t).
Proof.
  exact (stored_schedule_consistent Sample.noNumbers Sample.epoch
           SampleMore.firstWorld (lit "o9") SampleMore.firstDoc
           firstWorld_reachable firstWorld_doc).
Defined.

Lemma stored_contact_trimmed_witness :
  exists s, field SampleMore.firstDoc "address" = Str s
            /\ s <> [] /\ trim s = s.
Proof.
  exact (stored_contact_trimmed Sample.noNumbers Sample.epoch
           SampleMore.firstWorld (lit "o9") SampleMore.firstDoc
           firstWorld_reachable firstWorld_doc "address"
           (or_intror (or_intror eq_refl))).
Defined.

Lemma assignee_null_or_uid_witness :
  field SampleMore.firstDoc "assignedDriverUid" = Null
  \/ exists s, s <> [] /\ field SampleMore.firstDoc "assignedDriverUid" = Str s.
Proof.
  exact (assignee_null_or_uid Sample.noNumbers Sample.epoch
           SampleMore.firstWorld (lit "o9") SampleMore.firstDoc
           firstWorld_reachable firstWorld_doc).
Defined.

(** ** The transitions the screens offer *)

Section OfferedTransitions.

Import Lifecycle Writes.

Lemma card_status (i : jsstring) (d : Doc) (s k : OrderStatus) :
  field d "status" = statusValue s ->
  eqStr (Order.status (toOrder i d)) (statusName k) = bool_decide (s = k).
Proof.
  intros H. cbn [toOrder Order.status]. rewrite H.
  destruct s, k; reflexivity.
Qed.

Lemma stored_of_doc (w : World) (i : jsstring) (d : Doc) (s : OrderStatus) :
  orders w !! i = Some d -> field d "status" = statusValue s ->
  storedStatus w i = statusValue s.
Proof. intros Hd Hs. unfold storedStatus. rewrite Hd. exact Hs. Qed.

Lemma owner_click_status (now : Z) (b : OwnerPage.Button) (i : jsstring)
    (d : Doc) (st : OwnerPage.State) (w : World) (s : OrderStatus) :
  orders w !! i = Some d ->
  field d "status" = statusValue s ->
  storedStatus (OwnerPage.click now b (toOrder i d) (st, w)).2 i
  = statusValue (ownerTarget b s).
Proof.
  intros Hd Hs.
  pose proof (card_status i d s PENDING Hs) as Hp.
  pose proof (card_status i d s CONFIRMED Hs) as Hc.
  change (statusName PENDING) with "PENDING" in Hp.
  change (statusName CONFIRMED) with "CONFIRMED" in Hc.
  pose proof (stored_of_doc w i d s Hd Hs) as Hsame.
  assert (Hset : forall target,
            storedStatus (OwnerPage.updateStatus now i target (st, w)).2 i
            = statusValue target).
  { intros target.
    destruct (owner_updateStatus_effect now i target st w) as (_ & _ & H).
    exact (H d Hd). }
  unfold OwnerPage.click, OwnerPage.offered, OwnerPage.canAssign.
  cbn [fst]. rewrite Hp, Hc.
  destruct b; cbn [OwnerPage.press ownerTarget];
    change (Order.id (toOrder i d)) with i;
    destruct s; repeat case_bool_decide; try congruence;
    cbn [orb andb]; try exact Hsame; try apply Hset;
    try (destruct (negb _); [rewrite assign_keeps_status |]; exact Hsame).
Qed.

Lemma driver_click_status (now : Z) (user : option User)
    (b : DriverPage.Button) (i : jsstring) (d : Doc)
    (st : DriverPage.State) (w : World) (s : OrderStatus) :
  orders w !! i = Some d ->
  field d "status" = statusValue s ->
  storedStatus (DriverPage.click now user b (toOrder i d) (st, w)).2 i
  = statusValue (driverTarget b s).
Proof.
  intros Hd Hs.
  pose proof (card_status i d s CONFIRMED Hs) as Hc.
  pose proof (card_status i d s OUT_FOR_DELIVERY Hs) as Ho.
  change (statusName CONFIRMED) with "CONFIRMED" in Hc.
  change (statusName OUT_FOR_DELIVERY) with "OUT_FOR_DELIVERY" in Ho.
  pose proof (stored_of_doc w i d s Hd Hs) as Hsame.
  assert (Hset : forall target p,
            p !! "status" = Some (statusValue target) ->
            storedStatus (updateDoc now i p w).2 i = statusValue target).
  { intros target p Hp. unfold storedStatus.
    rewrite (updateDoc_same now i p d w Hd), merged_field, Hp.
    destruct target; reflexivity. }
  unfold DriverPage.click, DriverPage.offered, DriverPage.updateStatus.
  destruct b; cbn [DriverPage.target driverTarget]; rewrite ?Hc, ?Ho;
    change (Order.id (toOrder i d)) with i;
    destruct s; repeat case_bool_decide; try congruence;
    cbn [orb andb negb snd]; try exact Hsame.
  - destruct (negb _ && _).
    + apply Hset.
      destruct (selfAssign_lookup user (toOrder i d)
                  (DriverPage.basePayload OUT_FOR_DELIVERY)) as (_ & _ & Hr).
      rewrite Hr by discriminate.
      apply (basePayload_lookup OUT_FOR_DELIVERY).
    + apply Hset. apply (basePayload_lookup OUT_FOR_DELIVERY).
  - apply Hset. apply (basePayload_lookup DELIVERED).
Qed.

(** Pressing a button on a card that shows the stored order moves the
    stored status along the transition the button stands for and nowhere
    else. The owner's buttons realise exactly PENDING to CONFIRMED,
    PENDING to CANCELLED, CONFIRMED to PENDING and CONFIRMED to CANCELLED;
    the driver's exactly CONFIRMED to OUT_FOR_DELIVERY and
    OUT_FOR_DELIVERY to DELIVERED; no button leaves DELIVERED or
    CANCELLED. *)
Theorem ui_follows_transition_table :
  (forall now b i d st w s,
     orders w !! i = Some d -> field d "status" = statusValue s ->
     storedStatus (OwnerPage.click now b (toOrder i d) (st, w)).2 i
     = statusValue (ownerTarget b s))
  /\ (forall now user b i d st w s,
        orders w !! i = Some d -> field d "status" = statusValue s ->
        storedStatus (DriverPage.click now user b (toOrder i d) (st, w)).2 i
        = statusValue (driverTarget b s))
  /\ (forall s s', ownerEdge s s' = true
                   <-> exists b, ownerTarget b s = s' /\ s' <> s)
  /\ (forall s s', driverEdge s s' = true
                   <-> exists b, driverTarget b s = s' /\ s' <> s).
Proof.
  split; [exact owner_click_status |].
  split; [exact driver_click_status |].
  split.
  - intros s s'. split.
    + destruct s, s'; try discriminate; intros _;
        [exists OwnerPage.Confirm | exists OwnerPage.Cancel
        | exists OwnerPage.RevertToPending | exists OwnerPage.Cancel];
        split; [reflexivity | discriminate | reflexivity | discriminate
               | reflexivity | discriminate | reflexivity | discriminate].
    + intros (b & Hb & Hne). destruct b, s; simpl in Hb; subst s';
        first [reflexivity | contradiction].
  - intros s s'. split.
    + destruct s, s'; try discriminate; intros _;
        [exists DriverPage.StartDelivery | exists DriverPage.MarkDelivered];
        split; [reflexivity | discriminate | reflexivity | discriminate].
    + intros (b & Hb & Hne). destruct b, s; simpl in Hb; subst s';
        first [reflexivity | contradiction].
Qed.

End OfferedTransitions.

Lemma ui_follows_transition_table_witness :
  orders (Sample.world PENDING) !! lit "o1"
    = Some (Sample.orderDoc PENDING 1000)
  /\ field (Sample.orderDoc PENDING 1000) "status" = statusValue PENDING
  /\ Lifecycle.storedStatus
       (OwnerPage.click 7 OwnerPage.Confirm
          (toOrder (lit "o1") (Sample.orderDoc PENDING 1000))
          (Sample.ownerState, Sample.world PENDING)).2 (lit "o1")
     = statusValue CONFIRMED.
Proof.
  assert (H1 : orders (Sample.world PENDING) !! lit "o1"
               = Some (Sample.orderDoc PENDING 1000))
    by (vm_compute; reflexivity).
  assert (H2 : field (Sample.orderDoc PENDING 1000) "status"
               = statusValue PENDING) by (vm_compute; reflexivity).
  split; [exact H1 |]. split; [exact H2 |].
  exact (proj1 ui_follows_transition_table 7%Z OwnerPage.Confirm (lit "o1")
           (Sample.orderDoc PENDING 1000) Sample.ownerState
           (Sample.world PENDING) PENDING H1 H2).
Defined.

(** ** The driver's queues *)

Section DriverQueues.

Import Queries.

Lemma whereStr_true (k : string) (s : jsstring) (d : Doc) :
  whereStr k s d = true <-> d !! k = Some (Str s).
Proof.
  unfold whereStr. destruct (d !! k) as [[] |]; try (split; discriminate).
  rewrite bool_decide_eq_true. split; [intros -> | intros [= ->]]; reflexivity.
Qed.

Lemma whereNull_true (k : string) (d : Doc) :
  whereNull k d = true <-> d !! k = Some Null.
Proof.
  unfold whereNull. destruct (d !! k) as [[] |]; split;
    first [discriminate | reflexivity].
Qed.

Lemma ordered_kept (now : Z) (p d : Doc) :
  Writes.updatePayload p -> ordered ((resolve now <$> p) ∪ d) = ordered d.
Proof.
  intros Hp. unfold ordered.
  rewrite (untouched_field now p d "createdAt" Hp) by discriminate.
  reflexivity.
Qed.

(** The document a press of Start Delivery leaves, for a stored order
    that is CONFIRMED. *)
Lemma started_doc (now : Z) (user : option User) (i : jsstring) (d : Doc)
    (st : DriverPage.State) (w : World) :
  orders w !! i = Some d ->
  d !! "status" = Some (Str (lit "CONFIRMED")) ->
  orders (DriverPage.click now user DriverPage.StartDelivery (toOrder i d)
            (st, w)).2 !! i
  = Some ((resolve now <$>
             (if negb (truthy (coalesce (field d "assignedDriverUid") Null))
                 && truthy (DriverPage.driverUid user)
              then DriverPage.selfAssign user (toOrder i d)
                     (DriverPage.basePayload OUT_FOR_DELIVERY)
              else DriverPage.basePayload OUT_FOR_DELIVERY)) ∪ d).
Proof.
  intros Hd Hs.
  assert (Hst : Order.status (toOrder i d) = statusValue CONFIRMED).
  { cbn [toOrder Order.status]. unfold field. rewrite Hs. reflexivity. }
  unfold DriverPage.click, DriverPage.offered. rewrite Hst.
  change (eqStr (statusValue CONFIRMED) "CONFIRMED") with true. cbv iota.
  cbn [DriverPage.target].
  rewrite (start_delivery_accepted now user (toOrder i d) st w Hst).
  cbn [snd]. apply (updateDoc_same now i _ d w Hd).
Qed.

(** An order on the queue of unassigned confirmed orders that a signed-in
    driver starts leaves that queue and the owner's CONFIRMED tab in the
    same write, and is from then on on that driver's own Out-for-delivery
    tab; an order already on the driver's CONFIRMED tab moves to the same
    tab, still assigned to that driver. *)
Theorem started_order_changes_queue (now : Z) (u : User) (i : jsstring)
    (d : Doc) (st : DriverPage.State) (w : World) :
  uid u <> [] ->
  orders w !! i = Some d ->
  unassignedQuery CONFIRMED d = true
  \/ assignedQuery (Some u) CONFIRMED d = true ->
  exists d',
    orders (DriverPage.click now (Some u) DriverPage.StartDelivery
              (toOrder i d) (st, w)).2 !! i = Some d'
    /\ assignedQuery (Some u) OUT_FOR_DELIVERY d' = true
    /\ unassignedQuery CONFIRMED d' = false
    /\ assignedQuery (Some u) CONFIRMED d' = false
    /\ statusQuery CONFIRMED d' = false
    /\ statusQuery OUT_FOR_DELIVERY d' = true.
Proof.
  intros Hu Hd Hq.
  assert (Hne : emptyStr (uid u) = false)
    by (destruct (uid u); [contradiction | reflexivity]).
  assert (Hfacts : d !! "status" = Some (Str (lit "CONFIRMED"))
                   /\ ordered d = true
                   /\ (d !! "assignedDriverUid" = Some Null
                       \/ d !! "assignedDriverUid" = Some (Str (uid u)))).
  { destruct Hq as [Hq | Hq].
    - unfold unassignedQuery in Hq. rewrite !andb_true_iff in Hq.
      destruct Hq as [[[_ Hn] Hs] Ho].
      apply whereNull_true in Hn. apply whereStr_true in Hs. auto.
    - unfold assignedQuery in Hq. rewrite Hne, !andb_true_iff in Hq.
      destruct Hq as [[Ha Hs] Ho].
      apply whereStr_true in Ha. apply whereStr_true in Hs. auto. }
  destruct Hfacts as (Hs & Ho & Hassign).
  eexists. split; [apply (started_doc now (Some u) i d st w Hd Hs) |].
  destruct (basePayload_lookup OUT_FOR_DELIVERY) as (Hbs & _ & Hbrest).
  assert (Htru : truthy (DriverPage.driverUid (Some u)) = true).
  { simpl. destruct (uid u); [contradiction | reflexivity]. }
  set (p := if negb (truthy (coalesce (field d "assignedDriverUid") Null))
               && truthy (DriverPage.driverUid (Some u))
            then DriverPage.selfAssign (Some u) (toOrder i d)
                   (DriverPage.basePayload OUT_FOR_DELIVERY)
            else DriverPage.basePayload OUT_FOR_DELIVERY).
  assert (Hp : Writes.updatePayload p
               /\ p !! "status" = Some (statusValue OUT_FOR_DELIVERY)
               /\ ((resolve now <$> p) ∪ d) !! "assignedDriverUid"
                  = Some (Str (uid u))).
  { unfold p. rewrite Htru, andb_true_r.
    destruct Hassign as [Ha | Ha]; unfold field; rewrite Ha; cbn.
    - destruct (selfAssign_lookup (Some u) (toOrder i d)
                  (DriverPage.basePayload OUT_FOR_DELIVERY))
        as (Huid & _ & Hother).
      split; [constructor; exact Hu |].
      split; [rewrite Hother by discriminate; exact Hbs |].
      rewrite merged_lookup, Huid. reflexivity.
    - destruct (uid u) as [| c r] eqn:E; [contradiction |]. cbn.
      split; [constructor |]. split; [exact Hbs |].
      rewrite merged_lookup, Hbrest by discriminate. exact Ha. }
  destruct Hp as (Hup & Hps & Hpu).
  assert (Hstat : ((resolve now <$> p) ∪ d) !! "status"
                  = Some (Str (lit "OUT_FOR_DELIVERY"))).
  { rewrite merged_lookup, Hps. reflexivity. }
  assert (Hord : ordered ((resolve now <$> p) ∪ d) = true).
  { rewrite (ordered_kept now p d Hup). exact Ho. }
  unfold assignedQuery, unassignedQuery, statusQuery, whereStr, whereNull.
  rewrite Hne, Hpu, Hstat, Hord.
  rewrite bool_decide_eq_true_2 by reflexivity.
  repeat split; vm_compute; reflexivity.
Qed.

End DriverQueues.

Lemma started_order_changes_queue_witness :
  exists d',
    orders (DriverPage.click 7 (Some Sample.driver) DriverPage.StartDelivery
              (toOrder (lit "o1") (SampleMore.created CONFIRMED Null))
              (Sample.driverState, SampleMore.store CONFIRMED Null)).2
      !! lit "o1" = Some d'
    /\ Queries.assignedQuery (Some Sample.driver) OUT_FOR_DELIVERY d' = true
    /\ Queries.unassignedQuery CONFIRMED d' = false
    /\ Queries.assignedQuery (Some Sample.driver) CONFIRMED d' = false
    /\ Queries.statusQuery CONFIRMED d' = false
    /\ Queries.statusQuery OUT_FOR_DELIVERY d' = true.
Proof.
  apply (started_order_changes_queue 7 Sample.driver (lit "o1")
           (SampleMore.created CONFIRMED Null) Sample.driverState
           (SampleMore.store CONFIRMED Null)).
  - discriminate.
  - vm_compute. reflexivity.
  - left. vm_compute. reflexivity.
Defined.

(** ** What the driver's handler leaves of an assignment *)

(** The driver's handler changes the stored assignment of an order only
    when it claims it: the request is Start Delivery, the card shows the
    status CONFIRMED and no assigned driver, and a driver with a
    non-empty uid is signed in, whose uid is then stored. In every other
    case (a rejected request, Mark Delivered, an order whose card already
    shows a driver, no signed-in driver, any other document) both
    assignment fields of every stored order are as they were. *)
Theorem driver_assigns_only_when_claiming (now : Z) (user : option User)
    (order : Order.t) (status : OrderStatus) (st : DriverPage.State)
    (w : World) (j : jsstring) (d : Doc) :
  orders w !! j = Some d ->
  exists d',
    orders (DriverPage.updateStatus now user order status (st, w)).2 !! j
    = Some d'
    /\ ((d' !! "assignedDriverUid" = d !! "assignedDriverUid"
         /\ d' !! "assignedDriverName" = d !! "assignedDriverName")
        \/ (j = Order.id order
            /\ status = OUT_FOR_DELIVERY
            /\ Order.status order = statusValue CONFIRMED
            /\ truthy (Order.assignedDriverUid order) = false
            /\ exists u, user = Some u /\ uid u <> []
                         /\ d' !! "assignedDriverUid" = Some (Str (uid u)))).
Proof.
  intros Hd.
  destruct (decide (Order.id order = j)) as [<- | Hne].
  2: { exists d. split; [| left; split; reflexivity].
       rewrite (driver_updateStatus_other now user order status st w j Hne).
       exact Hd. }
  unfold DriverPage.updateStatus.
  destruct (bool_decide (status = OUT_FOR_DELIVERY)
            && negb (eqStr (Order.status order) "CONFIRMED")) eqn:R1.
  { exists d. split; [exact Hd | left; split; reflexivity]. }
  destruct (bool_decide (status = DELIVERED)
            && negb (eqStr (Order.status order) "OUT_FOR_DELIVERY")) eqn:R2.
  { exists d. split; [exact Hd | left; split; reflexivity]. }
  cbn [snd].
  destruct (basePayload_lookup status) as (_ & _ & Hrest).
  destruct (bool_decide (status = OUT_FOR_DELIVERY)
            && negb (truthy (Order.assignedDriverUid order))
            && truthy (DriverPage.driverUid user)) eqn:Hclaim.
  - eexists. split; [apply (updateDoc_same now _ _ d w Hd) |]. right.
    rewrite !andb_true_iff in Hclaim. destruct Hclaim as [[Hs Ha] Hu].
    apply bool_decide_eq_true in Hs. subst status.
    rewrite bool_decide_eq_true_2 in R1 by reflexivity. cbn in R1.
    apply negb_false_iff, eqStr_true in R1.
    apply negb_true_iff in Ha.
    split; [reflexivity |]. split; [reflexivity |].
    split; [exact R1 |]. split; [exact Ha |].
    destruct user as [u |]; [| discriminate Hu].
    exists u. split; [reflexivity |].
    split; [intros E; cbn in Hu; rewrite E in Hu; discriminate Hu |].
    destruct (selfAssign_lookup (Some u) order
                (DriverPage.basePayload OUT_FOR_DELIVERY)) as (Huid & _ & _).
    rewrite merged_lookup, Huid. reflexivity.
  - eexists. split; [apply (updateDoc_same now _ _ d w Hd) |]. left.
    rewrite !merged_lookup, !Hrest by discriminate. split; reflexivity.
Qed.

Lemma driver_assigns_only_when_claiming_witness :
  exists d',
    orders (DriverPage.updateStatus 7 (Some Sample.driver)
              (toOrder (lit "o1")
                 (SampleMore.created OUT_FOR_DELIVERY (Str (lit "d3"))))
              DELIVERED
              (Sample.driverState,
               SampleMore.store OUT_FOR_DELIVERY (Str (lit "d3")))).2
      !! lit "o1" = Some d'
    /\ ((d' !! "assignedDriverUid"
         = SampleMore.created OUT_FOR_DELIVERY (Str (lit "d3"))
             !! "assignedDriverUid"
         /\ d' !! "assignedDriverName"
            = SampleMore.created OUT_FOR_DELIVERY (Str (lit "d3"))
                !! "assignedDriverName")
        \/ (lit "o1"
            = Order.id (toOrder (lit "o1")
                          (SampleMore.created OUT_FOR_DELIVERY
                             (Str (lit "d3"))))
            /\ DELIVERED = OUT_FOR_DELIVERY
            /\ Order.status
                 (toOrder (lit "o1")
                    (SampleMore.created OUT_FOR_DELIVERY (Str (lit "d3"))))
               = statusValue CONFIRMED
            /\ truthy (Order.assignedDriverUid
                         (toOrder (lit "o1")
                            (SampleMore.created OUT_FOR_DELIVERY
                               (Str (lit "d3"))))) = false
            /\ exists u, Some Sample.driver = Some u /\ uid u <> []
                         /\ d' !! "assignedDriverUid" = Some (Str (uid u)))).
Proof.
  apply (driver_assigns_only_when_claiming 7 (Some Sample.driver)
           (toOrder (lit "o1")
              (SampleMore.created OUT_FOR_DELIVERY (Str (lit "d3"))))
           DELIVERED Sample.driverState
           (SampleMore.store OUT_FOR_DELIVERY (Str (lit "d3"))) (lit "o1")
           (SampleMore.created OUT_FOR_DELIVERY (Str (lit "d3")))).
  vm_compute. reflexivity.
Defined.

(** ** The dashboard counters *)

Section DashboardCounters.

Import OwnerPage Reference.

Lemma filter_length_perm {A : Type} (p : A -> bool) (l l' : list A) :
  Permutation l l' ->
  length (List.filter p l) = length (List.filter p l').
Proof.
  induction 1 as [| x l l' _ IH | x y l | l l' l'' _ IH1 _ IH2].
  - reflexivity.
  - cbn [List.filter]. destruct (p x); cbn [length]; congruence.
  - cbn [List.filter]. destruct (p x), (p y); reflexivity.
  - congruence.
Qed.

(** The counter of delivered orders and the DELIVERED entry of the
    per-status counters, which the fold updates in two different places,
    always agree; and the three counts of the dashboard (orders, orders
    per status, delivered orders) do not depend on the order in which the
    snapshot lists the documents. *)
Theorem dashboard_counts_consistent :
  (forall snapshot : list Doc,
     deliveredOrders (todayMetrics snapshot)
     = byStatus (todayMetrics snapshot) DELIVERED)
  /\ (forall snapshot snapshot' : list Doc,
        Permutation snapshot snapshot' ->
        total (todayMetrics snapshot) = total (todayMetrics snapshot')
        /\ (forall k, byStatus (todayMetrics snapshot) k
                      = byStatus (todayMetrics snapshot') k)
        /\ deliveredOrders (todayMetrics snapshot)
           = deliveredOrders (todayMetrics snapshot')).
Proof.
  split.
  - intros snapshot.
    destruct (fold_tally snapshot createEmptyMetrics) as (_ & _ & Hb & Hd & _).
    unfold todayMetrics. rewrite Hd, Hb. reflexivity.
  - intros snapshot snapshot' Hperm.
    destruct (fold_tally snapshot createEmptyMetrics)
      as (Ht & _ & Hb & Hd & _).
    destruct (fold_tally snapshot' createEmptyMetrics)
      as (Ht' & _ & Hb' & Hd' & _).
    unfold todayMetrics. split; [| split].
    + rewrite Ht, Ht', (Permutation_length Hperm). reflexivity.
    + intros k. rewrite Hb, Hb'. unfold withStatus.
      rewrite (filter_length_perm _ _ _ Hperm). reflexivity.
    + rewrite Hd, Hd'. unfold withStatus.
      rewrite (filter_length_perm _ _ _ Hperm). reflexivity.
Qed.

End DashboardCounters.

Lemma dashboard_counts_consistent_witness :
  Permutation Sample.today (rev Sample.today)
  /\ OwnerPage.total (OwnerPage.todayMetrics Sample.today)
     = OwnerPage.total (OwnerPage.todayMetrics (rev Sample.today)).
Proof.
  assert (H : Permutation Sample.today (rev Sample.today))
    by apply Permutation_rev.
  split; [exact H |].
  exact (proj1 (proj2 dashboard_counts_consistent Sample.today
                  (rev Sample.today) H)).
Defined.
